(** * Buffering metrics aggregation: a shallow embedding of video_aggregator.py

    The development follows the three functions of the module
    ([fetch_raw_events_from_db], [aggregate_buffering_data],
    [generate_summary_metrics]) and the part of the Python runtime they rest
    on: exceptions, [str.strip], the ordering used by [sorted], [datetime]
    values with their subtraction, [timedelta.total_seconds], and the mixed
    int/float arithmetic of [+] and [/].

    A [str] is its UTF-8 byte string, on which the byte-wise order is the
    code point order of Python; a [float] is a binary64 value; an [int] is
    unbounded. *)

From Stdlib Require Import ZArith String Ascii List Floats Lia.
From stdpp Require Import gmap strings sorting.

Local Open Scope string_scope.
Local Open Scope Z_scope.

(** ** Exceptions and results *)

Inductive exn : Set :=
  | ValueError
  | TypeError
  | AttributeError
  | OverflowError
  | ZeroDivisionError.

Inductive result (A : Type) : Type :=
  | Ok (a : A)
  | Raise (e : exn).

Arguments Ok {A} a.
Arguments Raise {A} e.

Definition bind {A B : Type} (r : result A) (k : A -> result B) : result B :=
  match r with
  | Ok a => k a
  | Raise e => Raise e
  end.

Notation "'let*' x ':=' r 'in' k" := (bind r (fun x => k))
  (at level 10, x pattern, r at level 200, k at level 200).

(** ** Python values found in the [timestamp] field

    The field is meant to hold a [str]; the other constructors are the
    wrong-typed values the [try] block of the aggregator has to face. *)

Inductive pyval : Set :=
  | VStr (s : string)
  | VBytes (b : string)
  | VInt (z : Z)
  | VNone.

(** [a < b] as [sorted] evaluates it on two keys. *)
Definition py_lt (a b : pyval) : result bool :=
  match a, b with
  | VStr x, VStr y => Ok (String.ltb x y)
  | VBytes x, VBytes y => Ok (String.ltb x y)
  | VInt x, VInt y => Ok (x <? y)
  | _, _ => Raise TypeError
  end.

(** ** [str.strip(chars)] for a one-character [chars] *)

Fixpoint lstrip (c : ascii) (s : string) : string :=
  match s with
  | EmptyString => EmptyString
  | String a s' => if Ascii.eqb a c then lstrip c s' else s
  end.

Fixpoint rstrip (c : ascii) (s : string) : string :=
  match s with
  | EmptyString => EmptyString
  | String a s' =>
      match rstrip c s' with
      | EmptyString => if Ascii.eqb a c then EmptyString else String a EmptyString
      | r => String a r
      end
  end.

Definition strip (c : ascii) (s : string) : string := rstrip c (lstrip c s).

(** [event['timestamp'].strip('Z')]: defined on [str]; [bytes.strip] refuses a
    [str] argument; [int] and [None] have no such attribute. *)
Definition strip_Z (v : pyval) : result string :=
  match v with
  | VStr s => Ok (strip "Z" s)
  | VBytes _ => Raise TypeError
  | VInt _ => Raise AttributeError
  | VNone => Raise AttributeError
  end.

(** ** Numbers: Python [int] and [float] (IEEE binary64) *)

Inductive pynum : Set :=
  | NInt (z : Z)
  | NFloat (f : float).

(** [m * 2^e] rounded to the nearest binary64, ties to even. *)
Definition nearest_float (m e : Z) (szero : bool) : float :=
  SF2Prim (binary_normalize 53 1024 m e szero).

(** The least magnitude that rounds beyond the largest finite binary64. *)
Definition float_overflow_bound : Z := 2 ^ 1024 - 2 ^ 970.

(** Conversion of an [int] operand to [float]. *)
Definition float_of_int (z : Z) : result float :=
  if float_overflow_bound <=? Z.abs z then Raise OverflowError
  else Ok (nearest_float z 0 false).

(** [a / b] on two [int]s: the correctly rounded quotient. The quotient is
    taken with at least 64 significant bits and a sticky last bit, then
    rounded once. *)
Definition int_true_divide (a b : Z) : result float :=
  if b =? 0 then Raise ZeroDivisionError
  else
    let n := Z.abs a in
    let d := Z.abs b in
    if float_overflow_bound * d <=? n then Raise OverflowError
    else
      let neg := xorb (a <? 0) (b <? 0) in
      let k := Z.max 0 (64 + Z.log2 d - Z.log2 n) in
      let q := (n * 2 ^ k) / d in
      let m := if (n * 2 ^ k) mod d =? 0 then q else Z.lor q 1 in
      Ok (nearest_float (if neg then - m else m) (- k) neg).

Definition float_truediv (x y : float) : result float :=
  if PrimFloat.eqb y 0%float then Raise ZeroDivisionError
  else Ok (x / y)%float.

Definition py_add (a b : pynum) : result pynum :=
  match a, b with
  | NInt x, NInt y => Ok (NInt (x + y))
  | NInt x, NFloat y => let* x' := float_of_int x in Ok (NFloat (x' + y)%float)
  | NFloat x, NInt y => let* y' := float_of_int y in Ok (NFloat (x + y')%float)
  | NFloat x, NFloat y => Ok (NFloat (x + y)%float)
  end.

(** [a / b]. An [int] operand of a [float] division is converted first; the
    converted divisor is zero exactly when the [int] is. *)
Definition py_truediv (a b : pynum) : result pynum :=
  match a, b with
  | NInt x, NInt y => let* q := int_true_divide x y in Ok (NFloat q)
  | NInt x, NFloat y =>
      let* x' := float_of_int x in
      let* q := float_truediv x' y in Ok (NFloat q)
  | NFloat x, NInt y =>
      let* y' := float_of_int y in
      if y =? 0 then Raise ZeroDivisionError else Ok (NFloat (x / y')%float)
  | NFloat x, NFloat y => let* q := float_truediv x y in Ok (NFloat q)
  end.

(** ** [datetime] and [timedelta] *)

(** The fields of a [datetime]; [tzinfo] is [None] for a naive value and the
    UTC offset in microseconds for an aware one. *)
Record datetime : Set := mkdatetime {
  year : Z;
  month : Z;
  day : Z;
  hour : Z;
  minute : Z;
  second : Z;
  microsecond : Z;
  tzinfo : option Z
}.

(** A [timedelta], as its total number of microseconds. *)
Definition timedelta : Set := Z.

Definition is_leap (y : Z) : bool :=
  (y mod 4 =? 0) && (negb (y mod 100 =? 0) || (y mod 400 =? 0)).

Definition days_before_year (y : Z) : Z :=
  let y1 := y - 1 in
  y1 * 365 + y1 / 4 - y1 / 100 + y1 / 400.

Definition days_in_month (y m : Z) : Z :=
  if m =? 2 then (if is_leap y then 29 else 28)
  else if (m =? 4) || (m =? 6) || (m =? 9) || (m =? 11) then 30
  else 31.

Fixpoint days_before_month_aux (y : Z) (n : nat) : Z :=
  match n with
  | O => 0
  | S n' => days_before_month_aux y n' + days_in_month y (Z.of_nat n)
  end.

(** Days of year [y] before the first day of month [m]. *)
Definition days_before_month (y m : Z) : Z :=
  days_before_month_aux y (Z.to_nat (m - 1)).

Definition ymd2ord (y m d : Z) : Z :=
  days_before_year y + days_before_month y m + d.

Definition toordinal (t : datetime) : Z := ymd2ord (year t) (month t) (day t).

(** [a - b] on two [datetime]s. *)
Definition datetime_sub (a b : datetime) : result timedelta :=
  let days := toordinal a - toordinal b in
  let secs := (second a + minute a * 60 + hour a * 3600)
              - (second b + minute b * 60 + hour b * 3600) in
  let base := (days * 86400 + secs) * 1000000 + (microsecond a - microsecond b) in
  match tzinfo a, tzinfo b with
  | None, None => Ok base
  | Some myoff, Some otoff => Ok (base + otoff - myoff)
  | _, _ => Raise TypeError
  end.

(** [timedelta.total_seconds()]: microseconds divided by [10**6]. *)
Definition total_seconds (d : timedelta) : result float :=
  int_true_divide d 1000000.

(** ** [datetime.fromisoformat]

    The aggregator is defined over an arbitrary parser (class [IsoParser]
    below), and the general properties hold for every parser.
    [isoformat_parser] is the one used to run it: it reads the strings that
    [datetime.isoformat] writes,
    [YYYY-MM-DD[*HH[:MM[:SS[.fff[fff]]]][+HH:MM[:SS[.ffffff]]]]], where [*] is
    any one character, and checks the ranges of the fields. On these strings
    every version of [fromisoformat] agrees; later versions of Python read
    further ISO 8601 forms, which this parser answers with [None], the
    [ValueError] of the versions that do not. *)

Definition digit_of_ascii (c : ascii) : option Z :=
  let n := Z.of_N (N_of_ascii c) in
  if (48 <=? n) && (n <=? 57) then Some (n - 48) else None.

(** Exactly [n] decimal digits. *)
Fixpoint read_digits (n : nat) (acc : Z) (s : string) : option (Z * string) :=
  match n with
  | O => Some (acc, s)
  | S n' =>
      match s with
      | String c s' =>
          match digit_of_ascii c with
          | Some d => read_digits n' (acc * 10 + d) s'
          | None => None
          end
      | EmptyString => None
      end
  end.

Definition expect (c : ascii) (s : string) : option string :=
  match s with
  | String a s' => if Ascii.eqb a c then Some s' else None
  | EmptyString => None
  end.

(** Drop one (UTF-8 encoded) character: a byte and the continuation bytes
    after it. *)
Fixpoint drop_continuation (s : string) : string :=
  match s with
  | String a s' =>
      let n := Z.of_N (N_of_ascii a) in
      if (128 <=? n) && (n <? 192) then drop_continuation s' else s
  | EmptyString => EmptyString
  end.

Definition drop_char (s : string) : string :=
  match s with
  | String _ s' => drop_continuation s'
  | EmptyString => EmptyString
  end.

(** [HH[:MM[:SS[.fff[fff]]]]] *)
Definition parse_hh_mm_ss_ff (s : string) : option (Z * Z * Z * Z) :=
  '(h, s1) ← read_digits 2 0 s;
  match s1 with
  | EmptyString => Some (h, 0, 0, 0)
  | _ =>
      s2 ← expect ":" s1;
      '(m, s3) ← read_digits 2 0 s2;
      match s3 with
      | EmptyString => Some (h, m, 0, 0)
      | _ =>
          s4 ← expect ":" s3;
          '(sec, s5) ← read_digits 2 0 s4;
          match s5 with
          | EmptyString => Some (h, m, sec, 0)
          | _ =>
              s6 ← expect "." s5;
              match String.length s6 with
              | 3%nat => '(f, _) ← read_digits 3 0 s6; Some (h, m, sec, f * 1000)
              | 6%nat => '(f, _) ← read_digits 6 0 s6; Some (h, m, sec, f)
              | _ => None
              end
          end
      end
  end.

(** Cut the time string at the first sign: the time of day, and the sign
    ([true] for [-]) with the offset text after it. *)
Fixpoint split_tz (s : string) : string * option (bool * string) :=
  match s with
  | EmptyString => (EmptyString, None)
  | String a s' =>
      if Ascii.eqb a "+" then (EmptyString, Some (false, s'))
      else if Ascii.eqb a "-" then (EmptyString, Some (true, s'))
      else let '(t, z) := split_tz s' in (String a t, z)
  end.

Definition parse_tz (neg : bool) (s : string) : option Z :=
  let n := String.length s in
  if (Nat.eqb n 5 || Nat.eqb n 8 || Nat.eqb n 15)%bool then
    '(h, m, sec, us) ← parse_hh_mm_ss_ff s;
    let off := (h * 3600 + m * 60 + sec) * 1000000 + us in
    if off <? 86400 * 1000000 then Some (if neg then - off else off) else None
  else None.

Definition isoformat_parser (s : string) : option datetime :=
  '(y, s1) ← read_digits 4 0 s;
  s2 ← expect "-" s1;
  '(mo, s3) ← read_digits 2 0 s2;
  s4 ← expect "-" s3;
  '(d, s5) ← read_digits 2 0 s4;
  if negb ((1 <=? y) && (1 <=? mo) && (mo <=? 12)
           && (1 <=? d) && (d <=? days_in_month y mo)) then None
  else
    match s5 with
    | EmptyString => Some (mkdatetime y mo d 0 0 0 0 None)
    | _ =>
        let '(timestr, tz) := split_tz (drop_char s5) in
        '(h, mi, sec, us) ← parse_hh_mm_ss_ff timestr;
        if negb ((h <=? 23) && (mi <=? 59) && (sec <=? 59)) then None
        else
          match tz with
          | None => Some (mkdatetime y mo d h mi sec us None)
          | Some (neg, tzstr) =>
              off ← parse_tz neg tzstr;
              Some (mkdatetime y mo d h mi sec us (Some off))
          end
    end.

(** ** Raw events *)

Record RawEvent : Set := mkRawEvent {
  user_id : string;
  session_id : string;
  event_type : string;
  timestamp : pyval
}.

Definition fetch_raw_events_from_db : list RawEvent :=
  [ mkRawEvent "user_1" "session_A" "buffer_start" (VStr "2023-10-27T10:00:15Z");
    mkRawEvent "user_2" "session_B" "buffer_start" (VStr "2023-10-27T10:01:05Z");
    mkRawEvent "user_1" "session_A" "buffer_end" (VStr "2023-10-27T10:00:18Z");
    mkRawEvent "user_3" "session_C" "buffer_start" (VStr "2023-10-27T10:02:30Z");
    mkRawEvent "user_2" "session_B" "buffer_end" (VStr "2023-10-27T10:01:10Z");
    mkRawEvent "user_1" "session_A" "buffer_start" (VStr "2023-10-27T10:05:00Z");
    mkRawEvent "user_3" "session_C" "buffer_end" (VStr "2023-10-27T10:02:35Z");
    mkRawEvent "user_1" "session_A" "buffer_end" (VStr "2023-10-27T10:05:02Z") ].

(** ** [sorted(raw_events, key=lambda x: x['timestamp'])]

    A stable sort on the [timestamp] values themselves, compared with [<]:
    an event moves left past those whose key is strictly smaller than its
    own and no further. A comparison of two keys that [<] does not relate
    raises [TypeError]. *)

Fixpoint insert_by_timestamp (x : RawEvent) (l : list RawEvent)
  : result (list RawEvent) :=
  match l with
  | [] => Ok [x]
  | y :: l' =>
      let* smaller := py_lt (timestamp y) (timestamp x) in
      if (smaller : bool) then
        let* r := insert_by_timestamp x l' in Ok (y :: r)
      else Ok (x :: y :: l')
  end.

Fixpoint sorted_by_timestamp (l : list RawEvent) : result (list RawEvent) :=
  match l with
  | [] => Ok []
  | x :: l' =>
      let* r := sorted_by_timestamp l' in
      insert_by_timestamp x r
  end.

(** ** Dictionaries in insertion order *)

Definition dict (V : Type) : Type := list (string * V).

Fixpoint dict_get {V : Type} (d : dict V) (k : string) : option V :=
  match d with
  | [] => None
  | (k', v) :: d' => if String.eqb k' k then Some v else dict_get d' k
  end.

(** [d[k] = v]: in place for a key already there, at the end for a new one. *)
Fixpoint dict_set {V : Type} (d : dict V) (k : string) (v : V) : dict V :=
  match d with
  | [] => [(k, v)]
  | (k', v') :: d' =>
      if String.eqb k' k then (k', v) :: d' else (k', v') :: dict_set d' k v
  end.

(** ** The aggregator *)

Record SessionAggregate : Set := mkSessionAggregate {
  total_buffer_duration_seconds : pynum;
  buffer_events_count : Z
}.

(** What the two [print] calls of the loop report. *)
Inductive diagnostic : Set :=
  | SkippingInvalidTimestamp (ts : pyval) (e : exn)
  | UnmatchedBufferEnd (sid : string).

(** The local variables of the loop, and the lines printed so far. *)
Record agg_state : Type := mkState {
  session_states : gmap string datetime;
  aggregated_data : dict SessionAggregate;
  stdout : list diagnostic
}.

Definition initial_state : agg_state := mkState ∅ [] [].

Definition print (d : diagnostic) (st : agg_state) : agg_state :=
  mkState (session_states st) (aggregated_data st) (stdout st ++ [d]).

(** [defaultdict(lambda: {... : 0, ... : 0})] *)
Definition default_factory : SessionAggregate := mkSessionAggregate (NInt 0) 0.

(** [aggregated_data[k]]: a missing key is first set to the default. *)
Definition defaultdict_getitem (d : dict SessionAggregate) (k : string)
  : dict SessionAggregate * SessionAggregate :=
  match dict_get d k with
  | Some v => (d, v)
  | None => (dict_set d k default_factory, default_factory)
  end.

(** The parser behind [datetime.fromisoformat]: [None] is [ValueError]. *)
Class IsoParser : Type := fromisoformat : string -> option datetime.

Section Aggregator.
Context `{IsoParser}.

(** The body of the [try] block. *)
Definition parse_timestamp (v : pyval) : result datetime :=
  let* timestamp_str := strip_Z v in
  match fromisoformat timestamp_str with
  | Some t => Ok t
  | None => Raise ValueError
  end.

(** One iteration of the [for] loop. *)
Definition process_event (st : agg_state) (event : RawEvent) : result agg_state :=
  let sid := session_id event in
  match parse_timestamp (timestamp event) with
  | Raise ValueError =>
      Ok (print (SkippingInvalidTimestamp (timestamp event) ValueError) st)
  | Raise TypeError =>
      Ok (print (SkippingInvalidTimestamp (timestamp event) TypeError) st)
  | Raise e => Raise e
  | Ok ts =>
      if String.eqb (event_type event) "buffer_start" then
        Ok (mkState (<[sid := ts]> (session_states st))
                    (aggregated_data st) (stdout st))
      else if String.eqb (event_type event) "buffer_end" then
        match session_states st !! sid with
        | Some buffer_start_time =>
            let* delta := datetime_sub ts buffer_start_time in
            let* buffer_duration := total_seconds delta in
            let '(agg1, m1) := defaultdict_getitem (aggregated_data st) sid in
            let* t := py_add (total_buffer_duration_seconds m1)
                             (NFloat buffer_duration) in
            let agg2 :=
              dict_set agg1 sid (mkSessionAggregate t (buffer_events_count m1)) in
            let '(agg3, m3) := defaultdict_getitem agg2 sid in
            let agg4 :=
              dict_set agg3 sid
                (mkSessionAggregate (total_buffer_duration_seconds m3)
                                    (buffer_events_count m3 + 1)) in
            Ok (mkState (delete sid (session_states st)) agg4 (stdout st))
        | None => Ok (print (UnmatchedBufferEnd sid) st)
        end
      else Ok st
  end.

(** The [for] loop over the sorted events. *)
Fixpoint process_events (st : agg_state) (events : list RawEvent)
  : result agg_state :=
  match events with
  | [] => Ok st
  | event :: rest =>
      let* st' := process_event st event in
      process_events st' rest
  end.

(** The whole call: the final state of the locals and the printed lines. *)
Definition run_aggregation (raw_events : list RawEvent) : result agg_state :=
  let* sorted_events := sorted_by_timestamp raw_events in
  process_events initial_state sorted_events.

Definition aggregate_buffering_data (raw_events : list RawEvent)
  : result (dict SessionAggregate) :=
  let* st := run_aggregation raw_events in
  Ok (aggregated_data st).
End Aggregator.

(** ** The summary *)

Record SummaryMetrics : Set := mkSummaryMetrics {
  total_sessions_with_buffering : Z;
  total_buffer_time_seconds : pynum;
  total_buffer_events : Z;
  average_buffer_time_per_session_seconds : pynum;
  average_buffer_time_per_event_seconds : pynum
}.

(** The [for] loop of the summary, over the items in insertion order. *)
Fixpoint sum_metrics (items : dict SessionAggregate) (time : pynum) (events : Z)
  : result (pynum * Z) :=
  match items with
  | [] => Ok (time, events)
  | (_, metrics) :: rest =>
      let* time' := py_add time (total_buffer_duration_seconds metrics) in
      sum_metrics rest time' (events + buffer_events_count metrics)
  end.

Definition generate_summary_metrics (aggregated : dict SessionAggregate)
  : result SummaryMetrics :=
  let sessions_with_buffering := Z.of_nat (length aggregated) in
  let* (total_time, total_events) := sum_metrics aggregated (NInt 0) 0 in
  let* avg_session :=
    if 0 <? sessions_with_buffering
    then py_truediv total_time (NInt sessions_with_buffering)
    else Ok (NInt 0) in
  let* avg_event :=
    if 0 <? total_events
    then py_truediv total_time (NInt total_events)
    else Ok (NInt 0) in
  Ok (mkSummaryMetrics sessions_with_buffering total_time total_events
                       avg_session avg_event).

(** The parser used to run the aggregator. *)
#[export] Instance isoformat : IsoParser := isoformat_parser.

(** ** Notions used to state the properties *)

(** The kind of a sort key: [<] relates two keys of one kind, and nothing
    else; [None] has no kind. *)
Definition key_class (v : pyval) : option nat :=
  match v with
  | VStr _ => Some 0%nat
  | VBytes _ => Some 1%nat
  | VInt _ => Some 2%nat
  | VNone => None
  end.

(** [x] may stand before [y] in a sorted list: [y < x] is false. *)
Definition timestamp_le (x y : RawEvent) : Prop :=
  py_lt (timestamp y) (timestamp x) = Ok false.

#[global] Instance pyval_eq_dec : EqDecision pyval.
Proof. solve_decision. Defined.

(** The events of one session, in the order of the list. *)
Definition session_events (sid : string) (events : list RawEvent) : list RawEvent :=
  filter (fun e => session_id e = sid) events.

(** The events with a given sort key, in the order of the list. *)
Definition events_at (v : pyval) (events : list RawEvent) : list RawEvent :=
  filter (fun e => timestamp e = v) events.

(** [a] is not later than [b]. *)
Definition datetime_le (a b : datetime) : Prop :=
  exists d, datetime_sub b a = Ok d /\ 0 <= d.

(** What an event is for its session. *)
Inductive buffer_event : Set :=
  | BufferStart (t : datetime)
  | BufferEnd (t : datetime).

(** One session seen alone: its pending start and its entry in
    [aggregated_data]. *)
Definition session_view : Type := option datetime * option SessionAggregate.

Definition entry_or_default (a : option SessionAggregate) : SessionAggregate :=
  match a with
  | Some m => m
  | None => default_factory
  end.

Definition view (sid : string) (st : agg_state) : session_view :=
  (session_states st !! sid, dict_get (aggregated_data st) sid).

(** The paired intervals of a session's trace, in the specification's terms:
    a start and the end that comes right after it among the starts and ends
    of the session. A start followed by another start, and an end that does
    not follow a start, are orphans. *)
Fixpoint paired_intervals (l : list buffer_event) : list (datetime * datetime) :=
  match l with
  | [] => []
  | BufferStart t1 :: ((BufferEnd t2 :: _) as tl) => (t1, t2) :: paired_intervals tl
  | _ :: tl => paired_intervals tl
  end.

(** The seconds of an interval, as the loop computes them. *)
Definition interval_seconds (p : datetime * datetime) (dur : float) : Prop :=
  exists delta, datetime_sub (snd p) (fst p) = Ok delta /\ total_seconds delta = Ok dur.

(** The entry of a session with the given interval durations, in order. *)
Definition aggregate_of (durs : list float) : option SessionAggregate :=
  match durs with
  | [] => None
  | _ =>
      Some (mkSessionAggregate (NFloat (fold_left PrimFloat.add durs 0%float))
                               (Z.of_nat (length durs)))
  end.

(** The start left pending at the end of a session's trace, if any. *)
Fixpoint pending_start (l : list buffer_event) : option datetime :=
  match l with
  | [] => None
  | e :: tl =>
      match tl with
      | [] => match e with BufferStart t => Some t | BufferEnd _ => None end
      | _ => pending_start tl
      end
  end.

(** Two runs with the same outcome, up to [R] on what they return. *)
Definition result_rel {A : Type} (R : A -> A -> Prop) (r r' : result A) : Prop :=
  match r, r' with
  | Ok a, Ok a' => R a a'
  | Raise e, Raise e' => e = e'
  | _, _ => False
  end.

(** The running total and count of an entry; a missing entry starts from the
    default, whose integer 0 becomes 0.0 at the first addition. *)
Definition float_entry (a : option SessionAggregate) (x : float) (c : Z) : Prop :=
  match a with
  | None => x = 0%float /\ c = 0
  | Some m => m = mkSessionAggregate (NFloat x) c
  end.

Definition extend_entry (a : option SessionAggregate) (x : float) (c : Z)
    (durs : list float) : option SessionAggregate :=
  match durs with
  | [] => a
  | _ =>
      Some (mkSessionAggregate (NFloat (fold_left PrimFloat.add durs x))
                               (c + Z.of_nat (length durs)))
  end.

Definition pending_prefix (p : option datetime) : list buffer_event :=
  match p with
  | Some t => [BufferStart t]
  | None => []
  end.

(** The sort goes through exactly on lists of at most one event and on
    lists whose keys are all of one kind. *)
Definition uniform_keys (l : list RawEvent) : Prop :=
  exists c, Forall (fun e => key_class (timestamp e) = Some c) l.

(** Two states of the locals that differ at most in the pending start of
    session [sid]. *)
Definition agree_off (sid : string) (st1 st2 : agg_state) : Prop :=
  aggregated_data st1 = aggregated_data st2
  /\ stdout st1 = stdout st2
  /\ forall k, k <> sid -> session_states st1 !! k = session_states st2 !! k.

(** Two starts and an end of session_A, the events of another session in
    between. *)
Definition start_at_10_00_15 : RawEvent :=
  mkRawEvent "user_1" "session_A" "buffer_start" (VStr "2023-10-27T10:00:15Z").

Definition start_at_10_05_00 : RawEvent :=
  mkRawEvent "user_1" "session_A" "buffer_start" (VStr "2023-10-27T10:05:00Z").

Definition end_at_10_05_02 : RawEvent :=
  mkRawEvent "user_1" "session_A" "buffer_end" (VStr "2023-10-27T10:05:02Z").

Definition session_B_start : RawEvent :=
  mkRawEvent "user_2" "session_B" "buffer_start" (VStr "2023-10-27T10:01:05Z").

Definition session_B_end : RawEvent :=
  mkRawEvent "user_2" "session_B" "buffer_end" (VStr "2023-10-27T10:01:10Z").

(** Two events that differ at most in [user_id]. *)
Definition same_but_user (a b : RawEvent) : Prop :=
  session_id a = session_id b /\ event_type a = event_type b
  /\ timestamp a = timestamp b.

Section SessionReading.
Context `{IsoParser}.

(** The start or end an event stands for, if its timestamp parses. *)
Definition classify (e : RawEvent) : option buffer_event :=
  match parse_timestamp (timestamp e) with
  | Ok t =>
      if String.eqb (event_type e) "buffer_start" then Some (BufferStart t)
      else if String.eqb (event_type e) "buffer_end" then Some (BufferEnd t)
      else None
  | Raise _ => None
  end.

(** The starts and ends of one session, in processing order. *)
Definition session_trace (sid : string) (events : list RawEvent) : list buffer_event :=
  omap classify (session_events sid events).

(** The events are in the order of the times they denote. *)
Definition chronological (events : list RawEvent) : Prop :=
  forall (i j : nat) a b ta tb,
    (i < j)%nat -> events !! i = Some a -> events !! j = Some b ->
    parse_timestamp (timestamp a) = Ok ta ->
    parse_timestamp (timestamp b) = Ok tb ->
    datetime_le ta tb.

(** The effect of one event of a session on the view of that session. *)
Definition session_step (v : session_view) (event : RawEvent) : result session_view :=
  match parse_timestamp (timestamp event) with
  | Raise ValueError => Ok v
  | Raise TypeError => Ok v
  | Raise e => Raise e
  | Ok ts =>
      if String.eqb (event_type event) "buffer_start" then Ok (Some ts, snd v)
      else if String.eqb (event_type event) "buffer_end" then
        match fst v with
        | Some buffer_start_time =>
            let* delta := datetime_sub ts buffer_start_time in
            let* buffer_duration := total_seconds delta in
            let m := entry_or_default (snd v) in
            let* t := py_add (total_buffer_duration_seconds m)
                             (NFloat buffer_duration) in
            Ok (None, Some (mkSessionAggregate t (buffer_events_count m + 1)))
        | None => Ok v
        end
      else Ok v
  end.

Fixpoint session_steps (v : session_view) (events : list RawEvent)
  : result session_view :=
  match events with
  | [] => Ok v
  | event :: rest =>
      let* v' := session_step v event in
      session_steps v' rest
  end.
End SessionReading.

(** ** Inputs for the concrete runs *)

(** A session whose only event carries no timestamp. *)
Definition none_timestamp_events : list RawEvent :=
  [ mkRawEvent "user_1" "session_A" "buffer_start" VNone ].

(** A session stamped with epoch seconds. *)
Definition epoch_timestamp_events : list RawEvent :=
  [ mkRawEvent "user_1" "session_A" "buffer_start" (VInt 1698400815);
    mkRawEvent "user_1" "session_A" "buffer_end" (VInt 1698400818) ].

(** A start with a UTC offset and an end with the [Z] suffix. *)
Definition mixed_awareness_events : list RawEvent :=
  [ mkRawEvent "user_1" "session_A" "buffer_start"
      (VStr "2023-10-27T10:00:15+00:00");
    mkRawEvent "user_1" "session_A" "buffer_end" (VStr "2023-10-27T10:00:18Z") ].

(** A start on the second and its end half a second later. *)
Definition fractional_events : list RawEvent :=
  [ mkRawEvent "user_1" "session_A" "buffer_start" (VStr "2023-10-27T10:00:15Z");
    mkRawEvent "user_1" "session_A" "buffer_end" (VStr "2023-10-27T10:00:15.500Z") ].

(** A completed interval followed by a start that is never matched. *)
Definition trailing_start_events : list RawEvent :=
  [ mkRawEvent "user_1" "session_A" "buffer_start" (VStr "2023-10-27T10:00:15Z");
    mkRawEvent "user_1" "session_A" "buffer_end" (VStr "2023-10-27T10:00:18Z");
    mkRawEvent "user_1" "session_A" "buffer_start" (VStr "2023-10-27T10:05:00Z") ].

(** The sample events grouped by session, each session in its own order. *)
Definition regrouped_events : list RawEvent :=
  [ mkRawEvent "user_1" "session_A" "buffer_start" (VStr "2023-10-27T10:00:15Z");
    mkRawEvent "user_1" "session_A" "buffer_end" (VStr "2023-10-27T10:00:18Z");
    mkRawEvent "user_1" "session_A" "buffer_start" (VStr "2023-10-27T10:05:00Z");
    mkRawEvent "user_1" "session_A" "buffer_end" (VStr "2023-10-27T10:05:02Z");
    mkRawEvent "user_2" "session_B" "buffer_start" (VStr "2023-10-27T10:01:05Z");
    mkRawEvent "user_2" "session_B" "buffer_end" (VStr "2023-10-27T10:01:10Z");
    mkRawEvent "user_3" "session_C" "buffer_start" (VStr "2023-10-27T10:02:30Z");
    mkRawEvent "user_3" "session_C" "buffer_end" (VStr "2023-10-27T10:02:35Z") ].

Definition at_10_00_15 : datetime := mkdatetime 2023 10 27 10 0 15 0 None.
Definition at_10_00_18 : datetime := mkdatetime 2023 10 27 10 0 18 0 None.
Definition at_10_05_00 : datetime := mkdatetime 2023 10 27 10 5 0 0 None.

(** The locals once a start at 10:00:18 is pending for session_A. *)
Definition pending_state : agg_state :=
  mkState {[ "session_A" := at_10_00_18 ]} [] [].

Definition end_at_10_00_15 : RawEvent :=
  mkRawEvent "user_1" "session_A" "buffer_end" (VStr "2023-10-27T10:00:15Z").

Definition end_at_10_00_18 : RawEvent :=
  mkRawEvent "user_1" "session_A" "buffer_end" (VStr "2023-10-27T10:00:18Z").

Definition sample_aggregates : dict SessionAggregate :=
  [ ("session_A", mkSessionAggregate (NFloat 5.0) 2);
    ("session_B", mkSessionAggregate (NFloat 5.0) 1);
    ("session_C", mkSessionAggregate (NFloat 5.0) 1) ].

(** The sum of the counts of a mapping. *)
Definition events_total (aggregated : dict SessionAggregate) : Z :=
  fold_right (fun kv acc => buffer_events_count (snd kv) + acc) 0 aggregated.

Definition float_totals (aggregated : dict SessionAggregate) : Prop :=
  Forall (fun kv => exists f, total_buffer_duration_seconds (snd kv) = NFloat f)
         aggregated.

(** ** Notions used for the further properties *)

(** Two states of the locals with the same [session_states] and
    [aggregated_data]; the printed lines may differ. *)
Definition same_locals (st1 st2 : agg_state) : Prop :=
  session_states st1 = session_states st2
  /\ aggregated_data st1 = aggregated_data st2.

(** A naive [datetime] whose fields are in the ranges of the type. *)
Definition valid_naive (t : datetime) : Prop :=
  tzinfo t = None
  /\ 1 <= year t <= 9999 /\ 1 <= month t <= 12 /\ 1 <= day t <= 31
  /\ 0 <= hour t <= 23 /\ 0 <= minute t <= 59 /\ 0 <= second t <= 59
  /\ 0 <= microsecond t <= 999999.

Definition is_unmatched_line (d : diagnostic) : bool :=
  match d with
  | UnmatchedBufferEnd _ => true
  | SkippingInvalidTimestamp _ _ => false
  end.

Definition is_invalid_line (d : diagnostic) : bool :=
  match d with
  | SkippingInvalidTimestamp _ _ => true
  | UnmatchedBufferEnd _ => false
  end.

(** The float totals of a mapping, in its order. *)
Definition float_totals_of (aggregated : dict SessionAggregate) : list float :=
  omap (fun kv => match total_buffer_duration_seconds (snd kv) with
                  | NFloat f => Some f
                  | NInt _ => None
                  end) aggregated.

(** Two mappings with the same values in the same order. *)
Definition same_values (d1 d2 : dict SessionAggregate) : Prop :=
  Forall2 (fun a b => snd a = snd b) d1 d2.

(** The locals hold only valid naive pending starts and float totals. *)
Definition loop_ok (st : agg_state) : Prop :=
  (forall sid t, session_states st !! sid = Some t -> valid_naive t)
  /\ float_totals (aggregated_data st).

Definition unmatched_lines (out : list diagnostic) : nat :=
  length (filter (fun d => is_unmatched_line d = true) out).

Definition invalid_lines (out : list diagnostic) : nat :=
  length (filter (fun d => is_invalid_line d = true) out).

Section EventKinds.
Context `{IsoParser}.

(** The event is a start or an end with a timestamp that parses. *)
Definition is_buffer_event (e : RawEvent) : bool :=
  match classify e with
  | Some _ => true
  | None => false
  end.

(** The event is an end with a timestamp that parses. *)
Definition is_parsed_end (e : RawEvent) : bool :=
  match classify e with
  | Some (BufferEnd _) => true
  | _ => false
  end.

(** The event is a start with a timestamp that parses. *)
Definition is_parsed_start (e : RawEvent) : bool :=
  match classify e with
  | Some (BufferStart _) => true
  | _ => false
  end.

(** The timestamp of the event does not parse. *)
Definition is_unparsed (e : RawEvent) : bool :=
  match parse_timestamp (timestamp e) with
  | Ok _ => false
  | Raise _ => true
  end.
(** How many ends with a timestamp that parses, and how many events with
    one that does not. *)
Definition parsed_ends (l : list RawEvent) : nat :=
  length (filter (fun e => is_parsed_end e = true) l).

Definition unparsed_events (l : list RawEvent) : nat :=
  length (filter (fun e => is_unparsed e = true) l).

(** The timestamp is a string, and what it parses to, if anything, is a
    valid naive [datetime]. *)
Definition well_stamped (e : RawEvent) : Prop :=
  (exists s, timestamp e = VStr s)
  /\ forall t, parse_timestamp (timestamp e) = Ok t -> valid_naive t.
End EventKinds.

(** * Properties *)

(** ** Arithmetic *)

Lemma float_of_int_zero : float_of_int 0 = Ok 0%float.
Proof. vm_compute. reflexivity. Qed.

Lemma py_add_zero_float (d : float) :
  py_add (NInt 0) (NFloat d) = Ok (NFloat (0 + d)%float).
Proof. unfold py_add. by rewrite float_of_int_zero. Qed.

Lemma py_add_float_float (x d : float) :
  py_add (NFloat x) (NFloat d) = Ok (NFloat (x + d)%float).
Proof. reflexivity. Qed.

Lemma float_of_int_bounded (z : Z) :
  Z.abs z < float_overflow_bound -> exists f, float_of_int z = Ok f.
Proof.
  intros Hlt. unfold float_of_int.
  destruct (float_overflow_bound <=? Z.abs z) eqn:Hle; [lia | eauto].
Qed.

Lemma float_of_int_raises (z : Z) (e : exn) :
  float_of_int z = Raise e -> e = OverflowError.
Proof.
  unfold float_of_int. destruct (_ <=? _); [|discriminate]. by intros [= <-].
Qed.

Lemma py_add_raises (a b : pynum) (e : exn) :
  py_add a b = Raise e -> e = OverflowError.
Proof.
  destruct a as [x|x], b as [y|y]; simpl; try discriminate.
  - destruct (float_of_int x) eqn:Hx; simpl; [discriminate|].
    intros [= <-]. by eapply float_of_int_raises.
  - destruct (float_of_int y) eqn:Hy; simpl; [discriminate|].
    intros [= <-]. by eapply float_of_int_raises.
Qed.

Lemma int_true_divide_raises (a b : Z) (e : exn) :
  b <> 0 -> int_true_divide a b = Raise e -> e = OverflowError.
Proof.
  intros Hb. unfold int_true_divide.
  destruct (b =? 0) eqn:Hz; [lia|].
  destruct (_ <=? _); [|discriminate]. by intros [= <-].
Qed.

(** A division by a nonzero [int] can only fail by overflow. *)
Lemma py_truediv_int_raises (a : pynum) (n : Z) (e : exn) :
  n <> 0 -> py_truediv a (NInt n) = Raise e -> e = OverflowError.
Proof.
  intros Hn. destruct a as [x|x]; simpl.
  - destruct (int_true_divide x n) eqn:Hq; simpl; [discriminate|].
    intros [= <-]. by eapply int_true_divide_raises.
  - destruct (float_of_int n) eqn:Hy; simpl.
    + destruct (n =? 0) eqn:Hz; [lia | discriminate].
    + intros [= <-]. by eapply float_of_int_raises.
Qed.

Lemma py_truediv_float_int (x : float) (n : Z) :
  n <> 0 -> Z.abs n < float_overflow_bound ->
  exists y, float_of_int n = Ok y /\ py_truediv (NFloat x) (NInt n) = Ok (NFloat (x / y)%float).
Proof.
  intros Hn Hb. destruct (float_of_int_bounded n Hb) as (y & Hy).
  exists y. split; [done|]. simpl. rewrite Hy. simpl.
  destruct (n =? 0) eqn:Hz; [lia | done].
Qed.

(** Rounding commutes with the change of sign. *)
Lemma nearest_float_opp (p : positive) (e : Z) (sz sz' : bool) :
  nearest_float (Z.neg p) e sz = (- nearest_float (Z.pos p) e sz')%float.
Proof.
  unfold nearest_float, binary_normalize, binary_round.
  destruct (shl_align _ _ _) as [mz ez].
  unfold binary_round_aux.
  destruct (shr_fexp _ _ _ _ _) as [mrs' e'].
  destruct (shr_fexp _ _ (round_nearest_even _ _) _ _) as [mrs'' e''].
  destruct (shr_m mrs'') as [|m|m]; try reflexivity.
  destruct (e'' <=? 1024 - 53); reflexivity.
Qed.

Lemma total_seconds_opp (d : timedelta) (x : float) :
  0 < d -> total_seconds d = Ok x -> total_seconds (- d) = Ok (- x)%float.
Proof.
  intros Hd. unfold total_seconds, int_true_divide.
  change (1000000 =? 0) with false. cbv iota.
  rewrite Z.abs_opp.
  destruct (_ <=? _); [discriminate|].
  replace (d <? 0) with false by lia.
  replace (- d <? 0) with true by lia.
  change (1000000 <? 0) with false. cbn [xorb negb].
  set (k := Z.max _ _). set (n := Z.abs d * 2 ^ k).
  set (m := if n mod Z.abs 1000000 =? 0 then _ else _).
  assert (0 <= m) as Hm.
  { assert (0 <= n / Z.abs 1000000).
    { apply Z.div_pos; [|done]. subst n. apply Z.mul_nonneg_nonneg; [lia|].
      apply Z.pow_nonneg. lia. }
    subst m. destruct (_ =? _); [done|]. apply Z.lor_nonneg. lia. }
  intros [= <-]. f_equal.
  destruct m as [|p|p]; [reflexivity| |lia].
  apply nearest_float_opp.
Qed.

Lemma datetime_sub_swap (a b : datetime) (d : timedelta) :
  datetime_sub a b = Ok d -> datetime_sub b a = Ok (- d).
Proof.
  unfold datetime_sub.
  destruct (tzinfo a), (tzinfo b); try discriminate; intros [= <-]; f_equal; lia.
Qed.

(** The arithmetic stays folded while the control flow is unfolded. *)
Opaque nearest_float float_of_int int_true_divide total_seconds datetime_sub
  py_add py_truediv.

(** ** Results *)

Lemma bind_Ok_inv {A B : Type} (r : result A) (k : A -> result B) (b : B) :
  bind r k = Ok b -> exists a, r = Ok a /\ k a = Ok b.
Proof. destruct r as [a|e]; simpl; [eauto | discriminate]. Qed.

Lemma bind_Raise_inv {A B : Type} (r : result A) (k : A -> result B) (e : exn) :
  bind r k = Raise e -> r = Raise e \/ exists a, r = Ok a /\ k a = Raise e.
Proof. destruct r as [a|e']; simpl; [eauto | intros [= ->]; auto]. Qed.

(** ** Dictionaries *)

Lemma dict_get_set_eq {V : Type} (d : dict V) (k : string) (v : V) :
  dict_get (dict_set d k v) k = Some v.
Proof.
  induction d as [|[k' v'] d IH]; simpl.
  - by rewrite String.eqb_refl.
  - destruct (String.eqb_spec k' k) as [->|Hne]; simpl.
    + by rewrite String.eqb_refl.
    + destruct (String.eqb_spec k' k); [done | apply IH].
Qed.

Lemma dict_get_set_ne {V : Type} (d : dict V) (k k' : string) (v : V) :
  k <> k' -> dict_get (dict_set d k v) k' = dict_get d k'.
Proof.
  intros Hne. induction d as [|[k0 v0] d IH]; simpl.
  - destruct (String.eqb_spec k k'); [done | reflexivity].
  - destruct (String.eqb_spec k0 k) as [->|Hk]; simpl.
    + destruct (String.eqb_spec k k'); [done | reflexivity].
    + destruct (String.eqb_spec k0 k'); [reflexivity | apply IH].
Qed.

Lemma dict_set_set {V : Type} (d : dict V) (k : string) (v v' : V) :
  dict_set (dict_set d k v) k v' = dict_set d k v'.
Proof.
  induction d as [|[k0 v0] d IH]; simpl.
  - by rewrite String.eqb_refl.
  - destruct (String.eqb_spec k0 k) as [->|Hk]; simpl.
    + by rewrite String.eqb_refl.
    + destruct (String.eqb_spec k0 k); [done | by rewrite IH].
Qed.

(** ** The order of the sort keys *)

Lemma string_ltb_leb (a b : string) : String.ltb a b = negb (String.leb b a).
Proof.
  unfold String.ltb, String.leb. rewrite (String.compare_antisym a b).
  by destruct (String.compare b a).
Qed.

Lemma string_leb_trans (a b c : string) :
  String.leb a b = true -> String.leb b c = true -> String.leb a c = true.
Proof.
  intros Hab Hbc. apply Is_true_true.
  change (String.le a c). transitivity b; unfold String.le; by apply Is_true_true.
Qed.

Lemma string_ltb_irrefl (a : string) : String.ltb a a = false.
Proof.
  rewrite string_ltb_leb. destruct (String.leb_total a a) as [->| ->]; done.
Qed.

Lemma string_ltb_false_trans (x y z : string) :
  String.ltb y x = false -> String.ltb z y = false -> String.ltb z x = false.
Proof.
  rewrite !string_ltb_leb, !negb_false_iff. intros. by apply string_leb_trans with y.
Qed.

Lemma string_ltb_asym (x y : string) :
  String.ltb y x = true -> String.ltb x y = false.
Proof.
  rewrite !string_ltb_leb, negb_true_iff, negb_false_iff. intros Hxy.
  destruct (String.leb_total x y) as [Hle|Hle]; congruence.
Qed.

Lemma py_lt_class (a b : pyval) (r : bool) :
  py_lt a b = Ok r -> exists c, key_class a = Some c /\ key_class b = Some c.
Proof. destruct a, b; simpl; try discriminate; eauto. Qed.

Lemma py_lt_defined (a b : pyval) (c : nat) :
  key_class a = Some c -> key_class b = Some c -> exists r, py_lt a b = Ok r.
Proof. destruct a, b; simpl; intros; simplify_eq; eauto. Qed.

Lemma py_lt_irrefl (a : pyval) : py_lt a a <> Ok true.
Proof.
  destruct a; simpl; try discriminate.
  - rewrite string_ltb_irrefl. discriminate.
  - rewrite string_ltb_irrefl. discriminate.
  - rewrite Z.ltb_irrefl. discriminate.
Qed.

Lemma py_lt_asym (a b : pyval) : py_lt b a = Ok true -> py_lt a b = Ok false.
Proof.
  destruct a, b; simpl; try discriminate; intros [= Hlt]; f_equal.
  - by apply string_ltb_asym.
  - by apply string_ltb_asym.
  - lia.
Qed.

Lemma py_lt_false_trans (x y z : pyval) :
  py_lt y x = Ok false -> py_lt z y = Ok false -> py_lt z x = Ok false.
Proof.
  destruct x, y, z; simpl; try discriminate; intros [= Hyx] [= Hzy]; f_equal.
  - by apply string_ltb_false_trans with s0.
  - by apply string_ltb_false_trans with b0.
  - lia.
Qed.

#[local] Instance timestamp_le_trans : Transitive timestamp_le.
Proof. intros x y z Hxy Hyz. unfold timestamp_le in *. by apply py_lt_false_trans with (timestamp y). Qed.

(** ** The stable sort *)

Lemma insert_by_timestamp_front (x : RawEvent) (l : list RawEvent) :
  Forall (timestamp_le x) l -> insert_by_timestamp x l = Ok (x :: l).
Proof.
  destruct l as [|y l]; [done|]. intros Hall. apply Forall_cons in Hall as [Hy _].
  simpl. unfold timestamp_le in Hy. by rewrite Hy.
Qed.

Lemma insert_by_timestamp_perm (x : RawEvent) (l l' : list RawEvent) :
  insert_by_timestamp x l = Ok l' -> x :: l ≡ₚ l'.
Proof.
  revert l'. induction l as [|y l IH]; intros l' Hins; simpl in Hins.
  - by injection Hins as <-.
  - apply bind_Ok_inv in Hins as ([] & Hlt & Hins).
    + apply bind_Ok_inv in Hins as (r & Hr & [= <-]).
      rewrite Permutation_swap. by rewrite (IH r Hr).
    + by injection Hins as <-.
Qed.

Lemma insert_by_timestamp_sorted (x : RawEvent) (l l' : list RawEvent) :
  StronglySorted timestamp_le l ->
  insert_by_timestamp x l = Ok l' ->
  StronglySorted timestamp_le l'.
Proof.
  revert l'. induction l as [|y l IH]; intros l' Hsorted Hins; simpl in Hins.
  - injection Hins as <-. repeat constructor.
  - apply StronglySorted_cons in Hsorted as [Hy Hsorted].
    apply bind_Ok_inv in Hins as ([] & Hlt & Hins).
    + apply bind_Ok_inv in Hins as (r & Hr & [= <-]).
      apply StronglySorted_cons. split; [|by apply IH].
      rewrite <- (insert_by_timestamp_perm _ _ _ Hr).
      apply Forall_cons. split; [|done]. by apply py_lt_asym.
    + injection Hins as <-.
      assert (timestamp_le x y) as Hxy by done.
      apply StronglySorted_cons. split.
      * apply Forall_cons. split; [done|].
        eapply Forall_impl; [exact Hy|]. intros z Hyz. by transitivity y.
      * by apply StronglySorted_cons.
Qed.

(** An event only passes events with a strictly smaller key, hence none
    with its own. *)
Lemma insert_by_timestamp_stable (v : pyval) (x : RawEvent) (l l' : list RawEvent) :
  insert_by_timestamp x l = Ok l' ->
  events_at v l' = events_at v (x :: l).
Proof.
  unfold events_at.
  revert l'. induction l as [|y l IH]; intros l' Hins; simpl in Hins.
  - by injection Hins as <-.
  - apply bind_Ok_inv in Hins as ([] & Hlt & Hins).
    + apply bind_Ok_inv in Hins as (r & Hr & [= <-]).
      rewrite (filter_cons _ y r), (IH r Hr), !(filter_cons _ x), !(filter_cons _ y).
      repeat case_decide; try done.
      exfalso. apply (py_lt_irrefl v). congruence.
    + by injection Hins as <-.
Qed.

(** Sorting commutes with taking the events of one session. *)
Lemma insert_by_timestamp_session (sid : string) (x : RawEvent) (l l' : list RawEvent) :
  StronglySorted timestamp_le l ->
  insert_by_timestamp x l = Ok l' ->
  if decide (session_id x = sid)
  then insert_by_timestamp x (session_events sid l) = Ok (session_events sid l')
  else session_events sid l' = session_events sid l.
Proof.
  unfold session_events.
  revert l'. induction l as [|y l IH]; intros l' Hsorted Hins; simpl in Hins.
  - injection Hins as <-. rewrite filter_cons. by case_decide.
  - apply StronglySorted_cons in Hsorted as [Hy Hsorted].
    apply bind_Ok_inv in Hins as ([] & Hlt & Hins).
    + apply bind_Ok_inv in Hins as (r & Hr & [= <-]).
      specialize (IH r Hsorted Hr).
      rewrite !(filter_cons _ y). case_decide as Hx.
      * case_decide as Hys; [|done]. simpl. by rewrite Hlt, IH.
      * by rewrite IH.
    + injection Hins as <-. rewrite (filter_cons _ x). case_decide as Hx; [|done].
      apply insert_by_timestamp_front.
      assert (Forall (timestamp_le x) (y :: l)) as Hall.
      { apply Forall_cons. split; [done|].
        eapply Forall_impl; [exact Hy|]. intros z Hyz.
        transitivity y; [exact Hlt | exact Hyz]. }
      apply Forall_forall. intros z Hz. apply list_elem_of_filter in Hz as [_ Hz].
      by apply (proj1 (Forall_forall _ _) Hall).
Qed.

Lemma sorted_by_timestamp_perm (l s : list RawEvent) :
  sorted_by_timestamp l = Ok s -> l ≡ₚ s.
Proof.
  revert s. induction l as [|x l IH]; intros s Hs; simpl in Hs.
  - by injection Hs as <-.
  - apply bind_Ok_inv in Hs as (r & Hr & Hins).
    rewrite (IH r Hr). by apply insert_by_timestamp_perm.
Qed.

Lemma sorted_by_timestamp_sorted (l s : list RawEvent) :
  sorted_by_timestamp l = Ok s -> StronglySorted timestamp_le s.
Proof.
  revert s. induction l as [|x l IH]; intros s Hs; simpl in Hs.
  - injection Hs as <-. constructor.
  - apply bind_Ok_inv in Hs as (r & Hr & Hins).
    eapply insert_by_timestamp_sorted; eauto.
Qed.

Lemma sorted_by_timestamp_stable (v : pyval) (l s : list RawEvent) :
  sorted_by_timestamp l = Ok s -> events_at v s = events_at v l.
Proof.
  revert s. induction l as [|x l IH]; intros s Hs; simpl in Hs.
  - by injection Hs as <-.
  - apply bind_Ok_inv in Hs as (r & Hr & Hins).
    rewrite (insert_by_timestamp_stable v _ _ _ Hins).
    unfold events_at in *. by rewrite !(filter_cons _ x), (IH r Hr).
Qed.

Lemma sorted_by_timestamp_session (sid : string) (l s : list RawEvent) :
  sorted_by_timestamp l = Ok s ->
  sorted_by_timestamp (session_events sid l) = Ok (session_events sid s).
Proof.
  revert s. induction l as [|x l IH]; intros s Hs; simpl in Hs.
  - by injection Hs as <-.
  - apply bind_Ok_inv in Hs as (r & Hr & Hins).
    pose proof (insert_by_timestamp_session sid x r s
                  (sorted_by_timestamp_sorted _ _ Hr) Hins) as Hsess.
    unfold session_events in *. rewrite (filter_cons _ x).
    case_decide as Hx.
    + simpl. by rewrite (IH r Hr).
    + rewrite Hsess. by apply IH.
Qed.

Lemma insert_by_timestamp_uniform (c : nat) (x : RawEvent) (l : list RawEvent) :
  key_class (timestamp x) = Some c ->
  Forall (fun e => key_class (timestamp e) = Some c) l ->
  exists l', insert_by_timestamp x l = Ok l'.
Proof.
  intros Hx. induction l as [|y l IH]; intros Hall; simpl; [eauto|].
  apply Forall_cons in Hall as [Hy Hall].
  destruct (py_lt_defined _ _ c Hy Hx) as ([] & ->); simpl; [|eauto].
  destruct (IH Hall) as (r & ->). simpl. eauto.
Qed.

Lemma sorted_by_timestamp_uniform (l : list RawEvent) :
  uniform_keys l -> exists s, sorted_by_timestamp l = Ok s.
Proof.
  intros (c & Hall). induction l as [|x l IH]; simpl; [eauto|].
  apply Forall_cons in Hall as [Hx Hall].
  destruct (IH Hall) as (r & Hr). rewrite Hr. simpl.
  apply insert_by_timestamp_uniform with c; [done|].
  by rewrite <- (sorted_by_timestamp_perm _ _ Hr).
Qed.

Lemma sorted_by_timestamp_Ok_inv (l s : list RawEvent) :
  sorted_by_timestamp l = Ok s -> (length l <= 1)%nat \/ uniform_keys l.
Proof.
  revert s. induction l as [|x l IH]; intros s Hs; simpl in Hs.
  - left. simpl. lia.
  - apply bind_Ok_inv in Hs as (r & Hr & Hins).
    destruct l as [|y l]; [left; simpl; lia|]. right.
    destruct r as [|z r].
    { apply sorted_by_timestamp_perm, Permutation_nil_r in Hr. done. }
    simpl in Hins. apply bind_Ok_inv in Hins as (b & Hlt & _).
    apply py_lt_class in Hlt as (c & Hz & Hx).
    assert (z ∈ y :: l) as Hzin.
    { rewrite (sorted_by_timestamp_perm _ _ Hr). by left. }
    exists c. apply Forall_cons. split; [done|].
    destruct (IH _ Hr) as [Hlen|(c' & Hall)].
    + destruct l; [|simpl in Hlen; lia].
      apply list_elem_of_singleton in Hzin as ->. by apply Forall_singleton.
    + assert (c' = c) as ->; [|done].
      pose proof (proj1 (Forall_forall _ _) Hall z Hzin) as Hz'. simpl in Hz'. congruence.
Qed.

(** ** One iteration of the loop *)

Section LoopFacts.
Context `{IsoParser}.

(** The two augmented assignments on [aggregated_data[sid]] amount to one
    store of the updated entry. *)
Lemma process_event_end (st : agg_state) (e : RawEvent) (ts t0 : datetime) :
  parse_timestamp (timestamp e) = Ok ts ->
  String.eqb (event_type e) "buffer_start" = false ->
  String.eqb (event_type e) "buffer_end" = true ->
  session_states st !! session_id e = Some t0 ->
  process_event st e =
    let* delta := datetime_sub ts t0 in
    let* dur := total_seconds delta in
    let m := entry_or_default (dict_get (aggregated_data st) (session_id e)) in
    let* t := py_add (total_buffer_duration_seconds m) (NFloat dur) in
    Ok (mkState (delete (session_id e) (session_states st))
          (dict_set (aggregated_data st) (session_id e)
             (mkSessionAggregate t (buffer_events_count m + 1)))
          (stdout st)).
Proof.
  intros Hp Hs He Hl. unfold process_event. rewrite Hp, Hs, He, Hl.
  destruct (datetime_sub ts t0) as [delta|]; simpl; [|done].
  destruct (total_seconds delta) as [dur|]; simpl; [|done].
  unfold defaultdict_getitem.
  destruct (dict_get (aggregated_data st) (session_id e)) as [v|] eqn:Hget; simpl.
  - destruct (py_add _ _) as [t|]; simpl; [|done].
    rewrite dict_get_set_eq. simpl. by rewrite dict_set_set.
  - destruct (py_add _ _) as [t|]; simpl; [|done].
    rewrite dict_set_set, dict_get_set_eq. simpl. by rewrite dict_set_set.
Qed.

Lemma view_print (sid : string) (d : diagnostic) (st : agg_state) :
  view sid (print d st) = view sid st.
Proof. reflexivity. Qed.

(** An iteration acts on the view of the event's own session as
    [session_step] does, and leaves the view of every other session alone. *)
Lemma process_event_session_step (st : agg_state) (e : RawEvent) :
  match session_step (view (session_id e) st) e with
  | Raise ex => process_event st e = Raise ex
  | Ok v' =>
      exists st', process_event st e = Ok st'
        /\ view (session_id e) st' = v'
        /\ forall sid, sid <> session_id e -> view sid st' = view sid st
  end.
Proof.
  unfold session_step.
  destruct (parse_timestamp (timestamp e)) as [ts|ex] eqn:Hp.
  - destruct (String.eqb (event_type e) "buffer_start") eqn:Hs.
    + unfold process_event. rewrite Hp, Hs. eexists. split; [done|].
      unfold view; simpl. split.
      * by rewrite lookup_insert_eq.
      * intros sid Hne. by rewrite lookup_insert_ne.
    + destruct (String.eqb (event_type e) "buffer_end") eqn:He.
      * simpl. destruct (session_states st !! session_id e) as [t0|] eqn:Hl.
        -- rewrite (process_event_end st e ts t0) by done.
           destruct (datetime_sub ts t0) as [delta|]; simpl; [|done].
           destruct (total_seconds delta) as [dur|]; simpl; [|done].
           destruct (py_add _ _) as [t|]; simpl; [|done].
           eexists. split; [done|]. unfold view; simpl. split.
           ++ by rewrite lookup_delete_eq, dict_get_set_eq.
           ++ intros sid Hne.
              rewrite lookup_delete_ne by done.
              by rewrite dict_get_set_ne by done.
        -- unfold process_event. rewrite Hp, Hs, He, Hl.
           eexists. split; [done|]. rewrite view_print.
           unfold view. rewrite Hl. split; [done|]. by intros.
      * unfold process_event. rewrite Hp, Hs, He. eexists. split; [done|].
        split; [by destruct (view _ st) | done].
  - unfold process_event. rewrite Hp.
    destruct ex; try done; eexists; (split; [done|]); rewrite view_print;
      (split; [by destruct (view _ st) | done]).
Qed.

Lemma process_event_other (st st' : agg_state) (e : RawEvent) (sid : string) :
  session_id e <> sid -> process_event st e = Ok st' -> view sid st' = view sid st.
Proof.
  intros Hne Hst. pose proof (process_event_session_step st e) as Hsim.
  destruct (session_step _ e) as [v'|ex].
  - destruct Hsim as (st'' & Hst'' & _ & Hother).
    rewrite Hst in Hst''. injection Hst'' as <-. apply Hother. congruence.
  - congruence.
Qed.

Lemma process_event_same (st st' : agg_state) (e : RawEvent) :
  process_event st e = Ok st' ->
  session_step (view (session_id e) st) e = Ok (view (session_id e) st').
Proof.
  intros Hst. pose proof (process_event_session_step st e) as Hsim.
  destruct (session_step _ e) as [v'|ex].
  - destruct Hsim as (st'' & Hst'' & Hv & _). congruence.
  - congruence.
Qed.

Lemma process_event_raise (st : agg_state) (e : RawEvent) (ex : exn) :
  process_event st e = Raise ex ->
  session_step (view (session_id e) st) e = Raise ex.
Proof.
  intros Hst. pose proof (process_event_session_step st e) as Hsim.
  destruct (session_step _ e) as [v'|ex'].
  - destruct Hsim as (st'' & Hst'' & _). congruence.
  - congruence.
Qed.

(** ** The loop, session by session *)

Lemma session_events_cons_same (e : RawEvent) (l : list RawEvent) :
  session_events (session_id e) (e :: l) = e :: session_events (session_id e) l.
Proof. unfold session_events. by rewrite filter_cons_True. Qed.

Lemma session_events_cons_other (sid : string) (e : RawEvent) (l : list RawEvent) :
  session_id e <> sid -> session_events sid (e :: l) = session_events sid l.
Proof. intros Hne. unfold session_events. by rewrite filter_cons_False. Qed.

Lemma process_events_view (events : list RawEvent) (st st' : agg_state) (sid : string) :
  process_events st events = Ok st' ->
  session_steps (view sid st) (session_events sid events) = Ok (view sid st').
Proof.
  revert st. induction events as [|e events IH]; intros st Hrun; simpl in Hrun.
  - injection Hrun as <-. reflexivity.
  - apply bind_Ok_inv in Hrun as (st1 & Hstep & Hrun).
    destruct (decide (session_id e = sid)) as [<-|Hne].
    + rewrite session_events_cons_same. simpl.
      rewrite (process_event_same _ _ _ Hstep). simpl. by apply IH.
    + rewrite session_events_cons_other by done.
      rewrite <- (process_event_other _ _ _ _ Hne Hstep). by apply IH.
Qed.

Lemma process_events_raise (events : list RawEvent) (st : agg_state) (ex : exn) :
  process_events st events = Raise ex ->
  exists sid, session_steps (view sid st) (session_events sid events) = Raise ex.
Proof.
  revert st. induction events as [|e events IH]; intros st Hrun; simpl in Hrun.
  - discriminate.
  - apply bind_Raise_inv in Hrun as [Hstep|(st1 & Hstep & Hrun)].
    + exists (session_id e). rewrite session_events_cons_same. simpl.
      by rewrite (process_event_raise _ _ _ Hstep).
    + destruct (IH _ Hrun) as (sid & Hsid). exists sid.
      destruct (decide (session_id e = sid)) as [<-|Hne].
      * rewrite session_events_cons_same. simpl.
        by rewrite (process_event_same _ _ _ Hstep).
      * rewrite session_events_cons_other by done.
        by rewrite <- (process_event_other _ _ _ _ Hne Hstep).
Qed.

End LoopFacts.

(** ** The illustrative dataset *)

(** C1. On the eight events of [fetch_raw_events_from_db] the aggregator
    returns session_A = (5.0, 2), session_B = (5.0, 1), session_C = (5.0, 1),
    and the summary of that mapping is 3 sessions, 15.0 seconds, 4 events,
    5.0 seconds per session and 3.75 seconds per event. *)
Theorem sample_dataset_metrics :
  aggregate_buffering_data fetch_raw_events_from_db = Ok sample_aggregates
  /\ generate_summary_metrics sample_aggregates
     = Ok (mkSummaryMetrics 3 (NFloat 15.0) 4 (NFloat 5.0) (NFloat 3.75)).
Proof. split; vm_compute; reflexivity. Qed.

(** ** Timestamps that do not parse *)

(** A string that [fromisoformat] rejects, and a [bytes] value, are skipped:
    the locals are untouched and one line is printed. *)
Lemma invalid_timestamp_skipped `{IsoParser} (st : agg_state) (e : RawEvent) :
  (exists s, timestamp e = VStr s /\ fromisoformat (strip "Z" s) = None)
  \/ (exists b, timestamp e = VBytes b) ->
  exists ex, process_event st e
             = Ok (print (SkippingInvalidTimestamp (timestamp e) ex) st).
Proof.
  unfold process_event, parse_timestamp.
  intros [(s & -> & Hs)|(b & ->)]; simpl.
  - rewrite Hs. eauto.
  - eauto.
Qed.

(** C2. A timestamp of the wrong type is not skipped: [None] and [int] have
    no [strip], the [AttributeError] is not among the exceptions caught, and
    it leaves the function; next to other events a [None] key already stops
    the sort with a [TypeError]. *)
Theorem wrong_type_timestamp_raises `{IsoParser} :
  aggregate_buffering_data none_timestamp_events = Raise AttributeError
  /\ aggregate_buffering_data epoch_timestamp_events = Raise AttributeError
  /\ aggregate_buffering_data
       (none_timestamp_events ++ fetch_raw_events_from_db)%list
     = Raise TypeError.
Proof. repeat split; vm_compute; reflexivity. Qed.

(** Both timestamps of [mixed_awareness_events] parse, one as an aware and
    one as a naive [datetime]; their subtraction is outside the [try] block
    and its [TypeError] leaves the function. *)
Lemma mixed_awareness_raises :
  aggregate_buffering_data mixed_awareness_events = Raise TypeError.
Proof. vm_compute; reflexivity. Qed.

(** ** The processing order *)

(** C3, as the code has it. The events are processed in the order of a
    stable sort on the timestamp strings themselves, ascending by code point:
    the sorted list is a rearrangement of the input, no event is followed by
    one with a smaller string, and events with the same string keep their
    input order. *)
Theorem sorted_by_timestamp_stable_sort `{IsoParser} (raw_events : list RawEvent) :
  Forall (fun e => exists s, timestamp e = VStr s) raw_events ->
  exists sorted_events,
    sorted_by_timestamp raw_events = Ok sorted_events
    /\ run_aggregation raw_events = process_events initial_state sorted_events
    /\ raw_events ≡ₚ sorted_events
    /\ StronglySorted timestamp_le sorted_events
    /\ forall v, events_at v sorted_events = events_at v raw_events.
Proof.
  intros Hstr.
  destruct (sorted_by_timestamp_uniform raw_events) as (s & Hs).
  { exists 0%nat. eapply Forall_impl; [exact Hstr|]. by intros e (x & ->). }
  exists s. split; [done|]. split.
  { unfold run_aggregation. by rewrite Hs. }
  split; [by apply sorted_by_timestamp_perm|].
  split; [by eapply sorted_by_timestamp_sorted|].
  intros v. by apply sorted_by_timestamp_stable.
Qed.

Lemma sorted_by_timestamp_stable_sort_witness :
  exists sorted_events,
    sorted_by_timestamp fractional_events = Ok sorted_events
    /\ run_aggregation fractional_events = process_events initial_state sorted_events
    /\ fractional_events ≡ₚ sorted_events
    /\ StronglySorted timestamp_le sorted_events
    /\ forall v, events_at v sorted_events = events_at v fractional_events.
Proof.
  apply (sorted_by_timestamp_stable_sort fractional_events).
  repeat constructor; simpl; eauto.
Defined.

(** C3, as stated, fails: the end of [fractional_events] is half a second
    after the start, yet its string sorts first, so the end is processed
    before the start and the interval is lost. *)
Lemma sort_order_not_chronological :
  sorted_by_timestamp fractional_events = Ok (reverse fractional_events)
  /\ ~ chronological (reverse fractional_events)
  /\ aggregate_buffering_data fractional_events = Ok [].
Proof.
  split; [vm_compute; reflexivity|]. split; [|vm_compute; reflexivity].
  intros Hchrono.
  destruct (Hchrono 0%nat 1%nat _ _
              (mkdatetime 2023 10 27 10 0 15 500000 None) at_10_00_15
              ltac:(lia) eq_refl eq_refl) as (d & Hd & Hpos).
  - vm_compute; reflexivity.
  - vm_compute; reflexivity.
  - vm_compute in Hd. injection Hd as <-. lia.
Qed.

(** ** An end without a pending start *)

(** C6. A [buffer_end] with a string timestamp whose session has no pending
    start is skipped: the iteration does not raise, prints one line, and
    leaves [session_states] and [aggregated_data] as they were. The line is
    the unmatched-end warning whenever the timestamp parses. *)
Theorem unmatched_end_skipped `{IsoParser} (st : agg_state) (e : RawEvent) (s : string) :
  timestamp e = VStr s ->
  event_type e = "buffer_end" ->
  session_states st !! session_id e = None ->
  exists st' d,
    process_event st e = Ok st'
    /\ session_states st' = session_states st
    /\ aggregated_data st' = aggregated_data st
    /\ stdout st' = (stdout st ++ [d])%list
    /\ (forall ts, parse_timestamp (timestamp e) = Ok ts ->
                   d = UnmatchedBufferEnd (session_id e)).
Proof.
  intros Hts Hty Hl. unfold process_event. rewrite Hty, Hl.
  destruct (parse_timestamp (timestamp e)) as [ts|ex] eqn:Hp; simpl.
  - eexists _, _. split; [reflexivity|]. by repeat split.
  - unfold parse_timestamp in Hp. rewrite Hts in Hp. simpl in Hp.
    destruct (fromisoformat (strip "Z" s)); [discriminate|]. injection Hp as <-.
    eexists _, _. split; [reflexivity|]. by repeat split.
Qed.

Lemma unmatched_end_skipped_witness :
  exists st' d,
    process_event initial_state end_at_10_00_18 = Ok st'
    /\ session_states st' = session_states initial_state
    /\ aggregated_data st' = aggregated_data initial_state
    /\ stdout st' = (stdout initial_state ++ [d])%list
    /\ (forall ts, parse_timestamp (timestamp end_at_10_00_18) = Ok ts ->
                   d = UnmatchedBufferEnd "session_A").
Proof.
  apply (unmatched_end_skipped initial_state end_at_10_00_18
           "2023-10-27T10:00:18Z").
  - reflexivity.
  - reflexivity.
  - apply lookup_empty.
Defined.

(** ** A start later than its end *)

(** C8. When the pending start is later than the end by [lag], the
    difference computed is [- lag], its seconds are the negation of the
    seconds of [lag], and that negative value is what is added to the
    session's total, while the count goes up by one. *)
Theorem negative_duration_passed_through `{IsoParser}
    (st : agg_state) (e : RawEvent) (ts start : datetime) (lag : timedelta) (x : float) :
  parse_timestamp (timestamp e) = Ok ts ->
  event_type e = "buffer_end" ->
  session_states st !! session_id e = Some start ->
  datetime_sub start ts = Ok lag ->
  0 < lag ->
  total_seconds lag = Ok x ->
  let m := entry_or_default (dict_get (aggregated_data st) (session_id e)) in
  datetime_sub ts start = Ok (- lag)
  /\ total_seconds (- lag) = Ok (- x)%float
  /\ process_event st e =
       let* t := py_add (total_buffer_duration_seconds m) (NFloat (- x)) in
       Ok (mkState (delete (session_id e) (session_states st))
             (dict_set (aggregated_data st) (session_id e)
                (mkSessionAggregate t (buffer_events_count m + 1)))
             (stdout st)).
Proof.
  intros Hp Hty Hl Hsub Hlag Hsec m.
  pose proof (datetime_sub_swap _ _ _ Hsub) as Hswap.
  pose proof (total_seconds_opp _ _ Hlag Hsec) as Hopp.
  split; [done|]. split; [done|].
  rewrite (process_event_end st e ts start); [|done|by rewrite Hty|by rewrite Hty|done].
  rewrite Hswap. simpl. rewrite Hopp. reflexivity.
Qed.

Lemma negative_duration_passed_through_witness :
  datetime_sub at_10_00_15 at_10_00_18 = Ok (- 3000000)
  /\ total_seconds (- 3000000) = Ok (- 3.0)%float
  /\ process_event pending_state end_at_10_00_15 =
       let* t := py_add (NInt 0) (NFloat (- 3.0)) in
       Ok (mkState (delete "session_A" (session_states pending_state))
             (dict_set [] "session_A" (mkSessionAggregate t (0 + 1)))
             []).
Proof.
  apply (negative_duration_passed_through pending_state end_at_10_00_15
           at_10_00_15 at_10_00_18 3000000 3.0%float).
  - vm_compute; reflexivity.
  - reflexivity.
  - apply lookup_singleton_eq.
  - vm_compute; reflexivity.
  - lia.
  - vm_compute; reflexivity.
Defined.

(** ** The summary *)

Lemma sum_metrics_raises (aggregated : dict SessionAggregate) (time : pynum) (n : Z) (e : exn) :
  sum_metrics aggregated time n = Raise e -> e = OverflowError.
Proof.
  revert time n. induction aggregated as [|[sid m] aggregated IH]; intros time n Hsum;
    simpl in Hsum.
  - discriminate.
  - apply bind_Raise_inv in Hsum as [Hadd|(t & _ & Hsum)].
    + by apply py_add_raises in Hadd.
    + by apply IH in Hsum.
Qed.

Lemma sum_metrics_float_totals (aggregated : dict SessionAggregate) (time : pynum) (n : Z) :
  float_totals aggregated ->
  time = NInt 0 \/ (exists f, time = NFloat f) ->
  exists t, sum_metrics aggregated time n = Ok (t, n + events_total aggregated)
            /\ (aggregated = [] -> t = time)
            /\ (aggregated <> [] -> exists f, t = NFloat f).
Proof.
  intros Hfl. revert time n.
  induction Hfl as [|[sid m] aggregated (f & Hm) Hfl IH]; intros time n Htime; simpl.
  - exists time. rewrite Z.add_0_r. done.
  - simpl in Hm. rewrite Hm.
    assert (exists f', py_add time (NFloat f) = Ok (NFloat f')) as (f' & ->).
    { destruct Htime as [->|(g & ->)].
      - rewrite py_add_zero_float. eauto.
      - rewrite py_add_float_float. eauto. }
    simpl. destruct (IH (NFloat f') (n + buffer_events_count m)) as (t & Ht & Hnil & Hcons);
      [eauto|].
    exists t. rewrite Ht. split; [f_equal; f_equal; lia|]. split; [done|].
    intros _. destruct aggregated; [|by apply Hcons]. rewrite Hnil by done. eauto.
Qed.

(** C7. The summary of the empty mapping is all zeros. In general the
    summary never raises [ZeroDivisionError]; each average is the quotient of
    the total time by its denominator when that is positive and the integer
    0 otherwise; and on a mapping with float totals whose counts stay within
    the range of a float, the summary is returned. *)
Theorem generate_summary_metrics_averages :
  generate_summary_metrics [] = Ok (mkSummaryMetrics 0 (NInt 0) 0 (NInt 0) (NInt 0))
  /\ (forall aggregated, generate_summary_metrics aggregated <> Raise ZeroDivisionError)
  /\ (forall aggregated summary,
        generate_summary_metrics aggregated = Ok summary ->
        total_sessions_with_buffering summary = Z.of_nat (length aggregated)
        /\ sum_metrics aggregated (NInt 0) 0
           = Ok (total_buffer_time_seconds summary, total_buffer_events summary)
        /\ (if 0 <? total_sessions_with_buffering summary
            then py_truediv (total_buffer_time_seconds summary)
                            (NInt (total_sessions_with_buffering summary))
                 = Ok (average_buffer_time_per_session_seconds summary)
            else average_buffer_time_per_session_seconds summary = NInt 0)
        /\ (if 0 <? total_buffer_events summary
            then py_truediv (total_buffer_time_seconds summary)
                            (NInt (total_buffer_events summary))
                 = Ok (average_buffer_time_per_event_seconds summary)
            else average_buffer_time_per_event_seconds summary = NInt 0))
  /\ (forall aggregated,
        float_totals aggregated ->
        Z.of_nat (length aggregated) < float_overflow_bound ->
        Z.abs (events_total aggregated) < float_overflow_bound ->
        exists summary, generate_summary_metrics aggregated = Ok summary).
Proof.
  split; [reflexivity|]. split; [|split].
  - intros aggregated Hraise. unfold generate_summary_metrics in Hraise.
    apply bind_Raise_inv in Hraise as [Hsum|([time events] & Hsum & Hraise)].
    + by apply sum_metrics_raises in Hsum.
    + apply bind_Raise_inv in Hraise as [Hdiv|(a1 & _ & Hraise)].
      * destruct (0 <? Z.of_nat (length aggregated)) eqn:Hpos; [|discriminate].
        apply py_truediv_int_raises in Hdiv; [done | lia].
      * apply bind_Raise_inv in Hraise as [Hdiv|(a2 & _ & Hraise)]; [|discriminate].
        destruct (0 <? events) eqn:Hpos; [|discriminate].
        apply py_truediv_int_raises in Hdiv; [done | lia].
  - intros aggregated summary Hok. unfold generate_summary_metrics in Hok.
    apply bind_Ok_inv in Hok as ([time events] & Hsum & Hok).
    apply bind_Ok_inv in Hok as (a1 & Ha1 & Hok).
    apply bind_Ok_inv in Hok as (a2 & Ha2 & [= <-]). simpl.
    split; [done|]. split; [done|]. split.
    + destruct (0 <? Z.of_nat (length aggregated)); [done | by injection Ha1].
    + destruct (0 <? events); [done | by injection Ha2].
  - intros aggregated Hfl Hlen Hev. unfold generate_summary_metrics.
    destruct (sum_metrics_float_totals aggregated (NInt 0) 0 Hfl) as (t & -> & Hnil & Hcons);
      [by left|].
    simpl. rewrite Z.add_0_l.
    assert (exists a1, (if 0 <? Z.of_nat (length aggregated)
                        then py_truediv t (NInt (Z.of_nat (length aggregated)))
                        else Ok (NInt 0)) = Ok a1) as (a1 & ->).
    { destruct (0 <? Z.of_nat (length aggregated)) eqn:Hpos; [|eauto].
      destruct Hcons as (f & ->); [by destruct aggregated|].
      destruct (py_truediv_float_int f (Z.of_nat (length aggregated))) as (y & _ & ->);
        [lia | lia | eauto]. }
    simpl.
    assert (exists a2, (if 0 <? events_total aggregated
                        then py_truediv t (NInt (events_total aggregated))
                        else Ok (NInt 0)) = Ok a2) as (a2 & ->).
    { destruct (0 <? events_total aggregated) eqn:Hpos; [|eauto].
      destruct Hcons as (f & ->); [by destruct aggregated|].
      destruct (py_truediv_float_int f (events_total aggregated)) as (y & _ & ->);
        [lia | lia | eauto]. }
    simpl. eauto.
Qed.

Lemma generate_summary_metrics_averages_witness :
  exists summary, generate_summary_metrics sample_aggregates = Ok summary.
Proof.
  apply (proj2 (proj2 (proj2 generate_summary_metrics_averages)) sample_aggregates).
  - repeat constructor; simpl; eauto.
  - vm_compute; reflexivity.
  - vm_compute; reflexivity.
Defined.

(** ** The user of an event *)

Lemma insert_by_timestamp_same_but_user (x x' : RawEvent) (l l' : list RawEvent) :
  same_but_user x x' -> Forall2 same_but_user l l' ->
  result_rel (Forall2 same_but_user)
    (insert_by_timestamp x l) (insert_by_timestamp x' l').
Proof.
  intros Hx Hl. induction Hl as [|y y' l l' Hy Hl IH]; simpl.
  - by constructor.
  - rewrite <- (proj2 (proj2 Hx)), <- (proj2 (proj2 Hy)).
    destruct (py_lt (timestamp y) (timestamp x)) as [[]|]; simpl; [| |done].
    + destruct (insert_by_timestamp x l), (insert_by_timestamp x' l'); simpl in *;
        try done.
      by constructor.
    + by repeat (constructor; [done|]).
Qed.

Lemma sorted_by_timestamp_same_but_user (l l' : list RawEvent) :
  Forall2 same_but_user l l' ->
  result_rel (Forall2 same_but_user)
    (sorted_by_timestamp l) (sorted_by_timestamp l').
Proof.
  induction 1 as [|x x' l l' Hx Hl IH]; simpl; [constructor|].
  destruct (sorted_by_timestamp l), (sorted_by_timestamp l'); simpl in *; try done.
  by apply insert_by_timestamp_same_but_user.
Qed.

Lemma process_event_same_but_user `{IsoParser} (st : agg_state) (e e' : RawEvent) :
  same_but_user e e' -> process_event st e = process_event st e'.
Proof.
  intros (Hs & Ht & Hk). unfold process_event. by rewrite Hs, Ht, Hk.
Qed.

Lemma process_events_same_but_user `{IsoParser} (st : agg_state) (l l' : list RawEvent) :
  Forall2 same_but_user l l' -> process_events st l = process_events st l'.
Proof.
  intros Hl. revert st. induction Hl as [|e e' l l' He Hl IH]; intros st; simpl; [done|].
  rewrite (process_event_same_but_user st e e' He).
  destruct (process_event st e'); simpl; [apply IH | done].
Qed.

(** C10. Two inputs of the same length that agree, event by event, on
    [session_id], [event_type] and [timestamp] give the same run: the same
    mapping returned (or the same exception), and the same lines printed. *)
Theorem user_id_irrelevant `{IsoParser} (l1 l2 : list RawEvent) :
  Forall2 same_but_user l1 l2 ->
  aggregate_buffering_data l1 = aggregate_buffering_data l2
  /\ run_aggregation l1 = run_aggregation l2.
Proof.
  intros Hl.
  assert (run_aggregation l1 = run_aggregation l2) as Hrun.
  { unfold run_aggregation.
    pose proof (sorted_by_timestamp_same_but_user l1 l2 Hl) as Hsorted.
    destruct (sorted_by_timestamp l1), (sorted_by_timestamp l2); simpl in *;
      try done; [|congruence].
    by apply process_events_same_but_user. }
  split; [|done]. unfold aggregate_buffering_data. by rewrite Hrun.
Qed.

Lemma user_id_irrelevant_witness :
  aggregate_buffering_data fractional_events
  = aggregate_buffering_data
      [ mkRawEvent "user_7" "session_A" "buffer_start" (VStr "2023-10-27T10:00:15Z");
        mkRawEvent "" "session_A" "buffer_end" (VStr "2023-10-27T10:00:15.500Z") ]
  /\ run_aggregation fractional_events
     = run_aggregation
         [ mkRawEvent "user_7" "session_A" "buffer_start" (VStr "2023-10-27T10:00:15Z");
           mkRawEvent "" "session_A" "buffer_end" (VStr "2023-10-27T10:00:15.500Z") ].
Proof.
  apply (user_id_irrelevant fractional_events).
  repeat constructor.
Defined.

(** ** Interleavings *)

Lemma filter_cons_inv {A : Type} (P : A -> Prop) `{forall x, Decision (P x)}
    (l : list A) (x : A) (r : list A) :
  filter P l = x :: r ->
  exists a b, l = (a ++ x :: b)%list /\ filter P a = [] /\ filter P b = r.
Proof.
  induction l as [|y l IH]; [done|].
  rewrite filter_cons. case_decide as Hy.
  - intros [= -> <-]. by exists [], l.
  - intros Hf. destruct (IH Hf) as (a & b & -> & Ha & Hb).
    exists (y :: a), b. split; [done|]. split; [|done].
    by rewrite filter_cons_False.
Qed.

Lemma session_events_app (sid : string) (l1 l2 : list RawEvent) :
  session_events sid (l1 ++ l2) = (session_events sid l1 ++ session_events sid l2)%list.
Proof. apply filter_app. Qed.

(** Lists with the same events session by session are rearrangements of
    each other. *)
Lemma session_events_perm (l1 l2 : list RawEvent) :
  (forall sid, session_events sid l1 = session_events sid l2) -> l1 ≡ₚ l2.
Proof.
  revert l2. induction l1 as [|x l1 IH]; intros l2 Hsess.
  - destruct l2 as [|y l2]; [done|].
    specialize (Hsess (session_id y)). rewrite session_events_cons_same in Hsess.
    discriminate.
  - pose proof (Hsess (session_id x)) as Hx. rewrite session_events_cons_same in Hx.
    symmetry in Hx. apply filter_cons_inv in Hx as (a & b & -> & Ha & Hb).
    rewrite <- Permutation_middle. constructor. apply IH. intros sid.
    rewrite session_events_app.
    destruct (decide (session_id x = sid)) as [<-|Hne].
    + unfold session_events at 2. rewrite Ha. simpl. by rewrite <- Hb.
    + specialize (Hsess sid).
      rewrite session_events_cons_other in Hsess by done.
      rewrite Hsess, session_events_app.
      by rewrite (session_events_cons_other sid x b Hne).
Qed.

Lemma sorted_by_timestamp_perm_Ok (l1 l2 s1 : list RawEvent) :
  l1 ≡ₚ l2 -> sorted_by_timestamp l1 = Ok s1 -> exists s2, sorted_by_timestamp l2 = Ok s2.
Proof.
  intros Hperm Hs1. destruct (sorted_by_timestamp_Ok_inv _ _ Hs1) as [Hlen|(c & Hall)].
  - rewrite (Permutation_length Hperm) in Hlen.
    destruct l2 as [|x [|y l2]]; simpl in *; [eauto | eauto | lia].
  - apply sorted_by_timestamp_uniform. exists c. by rewrite <- Hperm.
Qed.

(** C9. If two inputs have, for every session, the same events of that
    session in the same order, and the aggregator returns a mapping on the
    first, then it returns one on the second, with the same entry for every
    session. *)
Theorem interleaving_irrelevant `{IsoParser}
    (l1 l2 : list RawEvent) (m1 : dict SessionAggregate) :
  (forall sid, session_events sid l1 = session_events sid l2) ->
  aggregate_buffering_data l1 = Ok m1 ->
  exists m2, aggregate_buffering_data l2 = Ok m2
             /\ forall sid, dict_get m1 sid = dict_get m2 sid.
Proof.
  intros Hsess Hagg. unfold aggregate_buffering_data in *.
  apply bind_Ok_inv in Hagg as (st1 & Hrun1 & [= <-]).
  unfold run_aggregation in *.
  apply bind_Ok_inv in Hrun1 as (s1 & Hs1 & Hrun1).
  destruct (sorted_by_timestamp_perm_Ok l1 l2 s1 (session_events_perm _ _ Hsess) Hs1)
    as (s2 & Hs2).
  rewrite Hs2. simpl.
  assert (forall sid, session_events sid s1 = session_events sid s2) as Hsorted.
  { intros sid.
    pose proof (sorted_by_timestamp_session sid _ _ Hs1) as H1.
    pose proof (sorted_by_timestamp_session sid _ _ Hs2) as H2.
    rewrite Hsess in H1. congruence. }
  destruct (process_events initial_state s2) as [st2|ex] eqn:Hrun2; simpl.
  - exists (aggregated_data st2). split; [done|]. intros sid.
    pose proof (process_events_view _ _ _ sid Hrun1) as Hv1.
    pose proof (process_events_view _ _ _ sid Hrun2) as Hv2.
    rewrite Hsorted in Hv1. rewrite Hv1 in Hv2. by injection Hv2.
  - apply process_events_raise in Hrun2 as (sid & Hraise).
    pose proof (process_events_view _ _ _ sid Hrun1) as Hv1.
    rewrite Hsorted in Hv1. congruence.
Qed.

Lemma interleaving_irrelevant_witness :
  exists m2,
    aggregate_buffering_data regrouped_events = Ok m2
    /\ forall sid, dict_get sample_aggregates sid = dict_get m2 sid.
Proof.
  apply (interleaving_irrelevant fetch_raw_events_from_db);
    [|vm_compute; reflexivity].
  intros sid. unfold session_events, fetch_raw_events_from_db, regrouped_events.
  rewrite !filter_cons, !filter_nil. simpl.
  destruct (decide ("session_A" = sid)) as [<-|]; [reflexivity|].
  destruct (decide ("session_B" = sid)) as [<-|]; [reflexivity|].
  destruct (decide ("session_C" = sid)) as [<-|]; reflexivity.
Defined.

(** ** Paired intervals *)

Lemma paired_intervals_prefix_start (p : option datetime) (t : datetime)
    (l : list buffer_event) :
  paired_intervals (pending_prefix p ++ BufferStart t :: l)
  = paired_intervals (BufferStart t :: l).
Proof. by destruct p. Qed.

Lemma pending_start_prefix_cons (p : option datetime) (e : buffer_event)
    (l : list buffer_event) :
  pending_start (pending_prefix p ++ e :: l) = pending_start (e :: l).
Proof. by destruct p. Qed.

Lemma py_add_float_entry (a : option SessionAggregate) (x : float) (c : Z) (d : float) :
  float_entry a x c ->
  py_add (total_buffer_duration_seconds (entry_or_default a)) (NFloat d)
  = Ok (NFloat (x + d)%float)
  /\ buffer_events_count (entry_or_default a) = c.
Proof.
  destruct a as [m|]; simpl.
  - intros ->. simpl. by rewrite py_add_float_float.
  - intros [-> ->]. by rewrite py_add_zero_float.
Qed.

Section Pairing.
Context `{IsoParser}.

(** A step, read through what the event stands for. *)
Lemma session_step_classify (v v' : session_view) (e : RawEvent) :
  session_step v e = Ok v' ->
  match classify e with
  | Some (BufferStart t) => v' = (Some t, snd v)
  | Some (BufferEnd t) =>
      match fst v with
      | Some t0 =>
          exists delta dur tot,
            datetime_sub t t0 = Ok delta
            /\ total_seconds delta = Ok dur
            /\ py_add (total_buffer_duration_seconds (entry_or_default (snd v)))
                      (NFloat dur) = Ok tot
            /\ v' = (None,
                     Some (mkSessionAggregate tot
                             (buffer_events_count (entry_or_default (snd v)) + 1)))
      | None => v' = v
      end
  | None => v' = v
  end.
Proof.
  unfold session_step, classify.
  destruct (parse_timestamp (timestamp e)) as [ts|ex].
  - destruct (String.eqb (event_type e) "buffer_start").
    { by intros [= <-]. }
    destruct (String.eqb (event_type e) "buffer_end"); [|by intros [= <-]].
    destruct (fst v) as [t0|]; [|by intros [= <-]].
    intros Hstep.
    apply bind_Ok_inv in Hstep as (delta & Hdelta & Hstep).
    apply bind_Ok_inv in Hstep as (dur & Hdur & Hstep).
    apply bind_Ok_inv in Hstep as (tot & Htot & [= <-]).
    by exists delta, dur, tot.
  - destruct ex; try discriminate; by intros [= <-].
Qed.

(** A session's steps add up exactly the intervals of its trace. *)
Lemma session_steps_pairs (events : list RawEvent) (p p' : option datetime)
    (a a' : option SessionAggregate) (x : float) (c : Z) :
  float_entry a x c ->
  session_steps (p, a) events = Ok (p', a') ->
  exists durs,
    Forall2 interval_seconds
      (paired_intervals (pending_prefix p ++ omap classify events)) durs
    /\ a' = extend_entry a x c durs
    /\ p' = pending_start (pending_prefix p ++ omap classify events).
Proof.
  revert p a x c. induction events as [|e events IH]; intros p a x c Ha Hrun.
  - injection Hrun as <- <-. exists []. simpl. rewrite app_nil_r.
    split; [|by destruct p]. destruct p; constructor.
  - simpl in Hrun. apply bind_Ok_inv in Hrun as ([p1 a1] & Hstep & Hrun).
    apply session_step_classify in Hstep.
    change (omap classify (e :: events))
      with (match classify e with
            | Some b => b :: omap classify events
            | None => omap classify events
            end).
    destruct (classify e) as [[ts|ts]|].
    + injection Hstep as -> ->.
      destruct (IH _ _ _ _ Ha Hrun) as (durs & Hdurs & Hagg & Hpend).
      exists durs. rewrite paired_intervals_prefix_start, pending_start_prefix_cons.
      done.
    + cbn [fst snd] in Hstep. destruct p as [t0|].
      * destruct Hstep as (delta & dur & tot & Hdelta & Hdur & Htot & [= -> ->]).
        destruct (py_add_float_entry a x c dur Ha) as [Hadd Hcount].
        rewrite Hadd in Htot. injection Htot as <-. rewrite Hcount in Hrun.
        destruct (IH None (Some (mkSessionAggregate (NFloat (x + dur)) (c + 1)))
                    (x + dur)%float (c + 1) eq_refl Hrun)
          as (durs & Hdurs & Hagg & Hpend).
        exists (dur :: durs). cbn [pending_prefix app] in *. split; [|split].
        -- change (paired_intervals
                     (BufferStart t0 :: BufferEnd ts :: omap classify events))
             with ((t0, ts) :: paired_intervals
                                 (BufferEnd ts :: omap classify events)).
           constructor; [by exists delta|].
           by destruct (omap classify events) as [|[] ?].
        -- rewrite Hagg. destruct durs; simpl; do 2 f_equal; lia.
        -- rewrite Hpend. by destruct (omap classify events).
      * injection Hstep as -> ->.
        destruct (IH _ _ _ _ Ha Hrun) as (durs & Hdurs & Hagg & Hpend).
        exists durs. cbn [pending_prefix app] in *. split; [|split; [done|]].
        -- by destruct (omap classify events) as [|[] ?].
        -- rewrite Hpend. by destruct (omap classify events).
    + injection Hstep as -> ->. by apply (IH _ _ _ _ Ha Hrun).
Qed.

End Pairing.

(** C5, as the code has it. When the aggregator returns, the entry of every
    session is determined by the intervals of its trace, a start immediately
    followed by an end in processing order: the total is the sum of their
    seconds in that order, the count is their number, and a session with no
    such interval has no entry. Starts and ends outside an interval add
    nothing; a start left pending at the end stays in [session_states] only. *)
Theorem session_totals_are_paired_intervals `{IsoParser}
    (raw_events : list RawEvent) (st : agg_state) :
  run_aggregation raw_events = Ok st ->
  exists sorted_events,
    sorted_by_timestamp raw_events = Ok sorted_events
    /\ forall sid, exists durs,
         Forall2 interval_seconds
           (paired_intervals (session_trace sid sorted_events)) durs
         /\ dict_get (aggregated_data st) sid = aggregate_of durs
         /\ session_states st !! sid = pending_start (session_trace sid sorted_events).
Proof.
  intros Hrun. unfold run_aggregation in Hrun.
  apply bind_Ok_inv in Hrun as (s & Hs & Hrun).
  exists s. split; [done|]. intros sid.
  pose proof (process_events_view _ _ _ sid Hrun) as Hview.
  unfold view at 1 in Hview. simpl in Hview. rewrite lookup_empty in Hview.
  destruct (session_steps_pairs _ None _ None _ 0%float 0 (conj eq_refl eq_refl) Hview)
    as (durs & Hdurs & Hagg & Hpending).
  exists durs. split; [done|]. split; [|done].
  rewrite Hagg. by destruct durs.
Qed.

Lemma session_totals_are_paired_intervals_witness :
  exists sorted_events,
    sorted_by_timestamp trailing_start_events = Ok sorted_events
    /\ forall sid, exists durs,
         Forall2 interval_seconds
           (paired_intervals (session_trace sid sorted_events)) durs
         /\ dict_get [("session_A", mkSessionAggregate (NFloat 3.0) 1)] sid
            = aggregate_of durs
         /\ session_states
              (mkState {[ "session_A" := at_10_05_00 ]}
                       [("session_A", mkSessionAggregate (NFloat 3.0) 1)] [])
              !! sid
            = pending_start (session_trace sid sorted_events).
Proof.
  apply (session_totals_are_paired_intervals trailing_start_events
           (mkState {[ "session_A" := at_10_05_00 ]}
                    [("session_A", mkSessionAggregate (NFloat 3.0) 1)] [])).
  vm_compute. reflexivity.
Defined.

(** C5, as stated, fails in its last clause: in [trailing_start_events]
    session_A ends with a start that is never matched, and it is present in
    the result with the interval it completed before. *)
Lemma pending_session_still_reported :
  exists st,
    run_aggregation trailing_start_events = Ok st
    /\ session_states st !! "session_A" = Some at_10_05_00
    /\ aggregate_buffering_data trailing_start_events
       = Ok [("session_A", mkSessionAggregate (NFloat 3.0) 1)].
Proof.
  exists (mkState {[ "session_A" := at_10_05_00 ]}
                  [("session_A", mkSessionAggregate (NFloat 3.0) 1)] []).
  split; [vm_compute; reflexivity|]. split; [apply lookup_singleton_eq|].
  vm_compute; reflexivity.
Qed.

(** ** Two starts in a row *)

Section Overwrite.
Context `{IsoParser}.

Lemma process_events_app (st : agg_state) (l1 l2 : list RawEvent) :
  process_events st (l1 ++ l2) =
    let* st' := process_events st l1 in process_events st' l2.
Proof.
  revert st. induction l1 as [|e l1 IH]; intros st; simpl; [done|].
  destruct (process_event st e); simpl; [apply IH | done].
Qed.

(** Another session's event does not read the pending start of [sid]. *)
Lemma process_event_agree_off (sid : string) (st1 st2 : agg_state) (e : RawEvent) :
  session_id e <> sid -> agree_off sid st1 st2 ->
  result_rel (agree_off sid) (process_event st1 e) (process_event st2 e).
Proof.
  intros Hne (Hagg & Hout & Hss). unfold process_event.
  destruct (parse_timestamp (timestamp e)) as [ts|ex].
  - destruct (String.eqb (event_type e) "buffer_start").
    { simpl. split; [done|]. split; [done|]. intros k Hk. simpl.
      destruct (decide (session_id e = k)) as [<-|Hek].
      - by rewrite !lookup_insert_eq.
      - rewrite !lookup_insert_ne by done. by apply Hss. }
    destruct (String.eqb (event_type e) "buffer_end"); [|done].
    rewrite <- (Hss (session_id e) Hne), <- Hagg, <- Hout.
    destruct (session_states st1 !! session_id e) as [t0|].
    + destruct (datetime_sub ts t0); simpl; [|done].
      destruct (total_seconds _); simpl; [|done].
      destruct (defaultdict_getitem _ _) as [agg1 m1].
      destruct (py_add _ _); simpl; [|done].
      destruct (defaultdict_getitem _ _) as [agg3 m3]. simpl.
      split; [done|]. split; [done|]. intros k Hk. simpl.
      destruct (decide (session_id e = k)) as [<-|Hek].
      * by rewrite !lookup_delete_eq.
      * rewrite !lookup_delete_ne by done. by apply Hss.
    + simpl. unfold print; simpl. rewrite Hagg, Hout. done.
  - destruct ex; simpl; try done; unfold print; simpl; by rewrite Hagg, Hout.
Qed.

Lemma process_events_agree_off (sid : string) (l : list RawEvent) (st1 st2 : agg_state) :
  session_events sid l = [] -> agree_off sid st1 st2 ->
  result_rel (agree_off sid) (process_events st1 l) (process_events st2 l).
Proof.
  revert st1 st2. induction l as [|e l IH]; intros st1 st2 Hnone Hagree; simpl; [done|].
  destruct (decide (session_id e = sid)) as [<-|Hne].
  { by rewrite session_events_cons_same in Hnone. }
  rewrite session_events_cons_other in Hnone by done.
  pose proof (process_event_agree_off sid st1 st2 e Hne Hagree) as Hstep.
  destruct (process_event st1 e), (process_event st2 e); simpl in *; try done.
  by apply IH.
Qed.

(** A start of [sid] makes the two states equal. *)
Lemma process_event_start_agree (st1 st2 : agg_state) (e : RawEvent) (ts : datetime) :
  parse_timestamp (timestamp e) = Ok ts ->
  event_type e = "buffer_start" ->
  agree_off (session_id e) st1 st2 ->
  process_event st1 e = process_event st2 e.
Proof.
  intros Hp Hty (Hagg & Hout & Hss). unfold process_event. rewrite Hp, Hty. simpl.
  rewrite Hagg, Hout. do 2 f_equal. apply map_eq. intros k.
  destruct (decide (session_id e = k)) as [<-|Hek].
  - by rewrite !lookup_insert_eq.
  - rewrite !lookup_insert_ne by done. by apply Hss.
Qed.

End Overwrite.

(** C4. Take two starts of one session and then an end of it, all three
    with timestamps that parse, with only events of other sessions in
    between. The run is the same as without the first start, whatever
    follows; and when it returns, the session has no pending start left and
    its entry is the earlier one plus the seconds from the second start to
    the end, with the count one higher. *)
Theorem later_start_overwrites `{IsoParser}
    (st : agg_state) (sid : string) (e1 e2 e3 : RawEvent)
    (mid1 mid2 rest : list RawEvent) (t1 t2 t3 : datetime) :
  session_id e1 = sid -> session_id e2 = sid -> session_id e3 = sid ->
  event_type e1 = "buffer_start" ->
  event_type e2 = "buffer_start" ->
  event_type e3 = "buffer_end" ->
  parse_timestamp (timestamp e1) = Ok t1 ->
  parse_timestamp (timestamp e2) = Ok t2 ->
  parse_timestamp (timestamp e3) = Ok t3 ->
  session_events sid mid1 = [] ->
  session_events sid mid2 = [] ->
  let m := entry_or_default (dict_get (aggregated_data st) sid) in
  process_events st (e1 :: mid1 ++ e2 :: rest)%list
  = process_events st (mid1 ++ e2 :: rest)%list
  /\ forall st',
       process_events st (e1 :: mid1 ++ e2 :: mid2 ++ [e3])%list = Ok st' ->
       exists delta dur t,
         datetime_sub t3 t2 = Ok delta
         /\ total_seconds delta = Ok dur
         /\ py_add (total_buffer_duration_seconds m) (NFloat dur) = Ok t
         /\ dict_get (aggregated_data st') sid
            = Some (mkSessionAggregate t (buffer_events_count m + 1))
         /\ session_states st' !! sid = None.
Proof.
  intros Hs1 Hs2 Hs3 Hty1 Hty2 Hty3 Hp1 Hp2 Hp3 Hmid1 Hmid2 m. split.
  - cbn [process_events]. unfold process_event at 1. rewrite Hp1, Hty1. simpl.
    rewrite !process_events_app.
    set (st1 := mkState _ _ _).
    assert (agree_off sid st1 st) as Hagree.
    { split; [done|]. split; [done|]. intros k Hk. unfold st1; simpl.
      rewrite lookup_insert_ne; [done | congruence]. }
    pose proof (process_events_agree_off sid mid1 st1 st Hmid1 Hagree) as Hrun.
    destruct (process_events st1 mid1) as [sa|ea], (process_events st mid1) as [sb|eb];
      simpl in *; try done; [|congruence].
    rewrite <- Hs2 in Hrun. by rewrite (process_event_start_agree sa sb e2 t2).
  - intros st' Hrun.
    pose proof (process_events_view _ _ _ sid Hrun) as Hview.
    assert (session_events sid (e1 :: mid1 ++ e2 :: mid2 ++ [e3]) = [e1; e2; e3])
      as Hevs.
    { unfold session_events in *.
      rewrite filter_cons_True by done. rewrite filter_app, Hmid1. cbn [app].
      rewrite filter_cons_True by done. rewrite filter_app, Hmid2. cbn [app].
      rewrite filter_cons_True by done. by rewrite filter_nil. }
    rewrite Hevs in Hview. cbn [session_steps] in Hview.
    apply bind_Ok_inv in Hview as (v1 & Hv1 & Hview).
    apply bind_Ok_inv in Hview as (v2 & Hv2 & Hview).
    apply bind_Ok_inv in Hview as (v3 & Hv3 & [= Hv]).
    unfold session_step in Hv1, Hv2, Hv3.
    rewrite Hp1, Hty1 in Hv1. rewrite Hp2, Hty2 in Hv2. rewrite Hp3, Hty3 in Hv3.
    simpl in Hv1, Hv2. injection Hv1 as <-. injection Hv2 as <-.
    cbn [String.eqb Ascii.eqb Bool.eqb fst snd] in Hv3.
    apply bind_Ok_inv in Hv3 as (delta & Hdelta & Hv3).
    apply bind_Ok_inv in Hv3 as (dur & Hdur & Hv3).
    apply bind_Ok_inv in Hv3 as (t & Ht & [= <-]).
    unfold view in Hv. injection Hv as Hpend Hentry.
    exists delta, dur, t. done.
Qed.

Lemma later_start_overwrites_witness :
  process_events initial_state
    (start_at_10_00_15 :: [session_B_start] ++ start_at_10_05_00
       :: [session_B_end; end_at_10_05_02])%list
  = process_events initial_state
      ([session_B_start] ++ start_at_10_05_00 :: [session_B_end; end_at_10_05_02])%list
  /\ forall st',
       process_events initial_state
         (start_at_10_00_15 :: [session_B_start] ++ start_at_10_05_00
            :: [session_B_end] ++ [end_at_10_05_02])%list = Ok st' ->
       exists delta dur t,
         datetime_sub (mkdatetime 2023 10 27 10 5 2 0 None) at_10_05_00 = Ok delta
         /\ total_seconds delta = Ok dur
         /\ py_add (NInt 0) (NFloat dur) = Ok t
         /\ dict_get (aggregated_data st') "session_A"
            = Some (mkSessionAggregate t (0 + 1))
         /\ session_states st' !! "session_A" = None.
Proof.
  apply (later_start_overwrites initial_state "session_A"
           start_at_10_00_15 start_at_10_05_00 end_at_10_05_02
           [session_B_start] [session_B_end] [session_B_end; end_at_10_05_02]
           at_10_00_15 at_10_05_00 (mkdatetime 2023 10 27 10 5 2 0 None));
    try reflexivity; vm_compute; reflexivity.
Defined.

(** * Further properties of the aggregator and the summary *)

(** ** Sorting again *)

Lemma sorted_by_timestamp_of_sorted (l : list RawEvent) :
  StronglySorted timestamp_le l -> sorted_by_timestamp l = Ok l.
Proof.
  induction l as [|x l IH]; intros Hsorted; [done|].
  apply StronglySorted_cons in Hsorted as [Hx Hsorted].
  simpl. rewrite (IH Hsorted). simpl. by apply insert_by_timestamp_front.
Qed.

(** X1. Sorting is idempotent: the sorted events sort to themselves, so the
    aggregator run on its own processing order gives the same run. *)
Theorem resorting_changes_nothing `{IsoParser} (raw_events sorted_events : list RawEvent) :
  sorted_by_timestamp raw_events = Ok sorted_events ->
  sorted_by_timestamp sorted_events = Ok sorted_events
  /\ run_aggregation sorted_events = run_aggregation raw_events
  /\ aggregate_buffering_data sorted_events = aggregate_buffering_data raw_events.
Proof.
  intros Hs.
  pose proof (sorted_by_timestamp_of_sorted _ (sorted_by_timestamp_sorted _ _ Hs)) as Hss.
  assert (run_aggregation sorted_events = run_aggregation raw_events) as Hrun.
  { unfold run_aggregation. by rewrite Hs, Hss. }
  split; [done|]. split; [done|]. unfold aggregate_buffering_data. by rewrite Hrun.
Qed.

Lemma resorting_changes_nothing_witness :
  sorted_by_timestamp (reverse fractional_events) = Ok (reverse fractional_events)
  /\ run_aggregation (reverse fractional_events) = run_aggregation fractional_events
  /\ aggregate_buffering_data (reverse fractional_events)
     = aggregate_buffering_data fractional_events.
Proof.
  apply (resorting_changes_nothing fractional_events).
  vm_compute; reflexivity.
Defined.

(** ** Inputs with distinct timestamps *)

Lemma py_lt_antisym (a b : pyval) :
  py_lt a b = Ok false -> py_lt b a = Ok false -> a = b.
Proof.
  destruct a, b; simpl; try discriminate; intros [= Hab] [= Hba]; f_equal.
  - rewrite string_ltb_leb, negb_false_iff in Hab, Hba. by apply String.leb_antisym.
  - rewrite string_ltb_leb, negb_false_iff in Hab, Hba. by apply String.leb_antisym.
  - lia.
Qed.

Lemma NoDup_fmap_eq {A B : Type} (f : A -> B) (l : list A) (x y : A) :
  NoDup (f <$> l) -> x ∈ l -> y ∈ l -> f x = f y -> x = y.
Proof.
  induction l as [|z l IH]; intros Hnd Hx Hy Hf; [by apply elem_of_nil in Hx|].
  rewrite fmap_cons in Hnd. apply NoDup_cons in Hnd as [Hz Hnd].
  apply elem_of_cons in Hx as [->|Hx], Hy as [->|Hy]; [done| | |by apply IH].
  - destruct Hz. rewrite Hf. by apply list_elem_of_fmap_2.
  - destruct Hz. rewrite <- Hf. by apply list_elem_of_fmap_2.
Qed.

Lemma insert_by_timestamp_raises (x : RawEvent) (l : list RawEvent) (ex : exn) :
  insert_by_timestamp x l = Raise ex -> ex = TypeError.
Proof.
  induction l as [|y l IH]; simpl; [discriminate|].
  destruct (py_lt (timestamp y) (timestamp x)) as [[]|ex'] eqn:Hlt; simpl.
  - destruct (insert_by_timestamp x l); simpl; [discriminate|].
    intros [= <-]. by apply IH.
  - discriminate.
  - intros [= <-]. by destruct (timestamp y), (timestamp x); simpl in Hlt; simplify_eq.
Qed.

Lemma sorted_by_timestamp_raises (l : list RawEvent) (ex : exn) :
  sorted_by_timestamp l = Raise ex -> ex = TypeError.
Proof.
  induction l as [|x l IH]; simpl; [discriminate|].
  destruct (sorted_by_timestamp l) as [r|ex']; simpl.
  - apply insert_by_timestamp_raises.
  - intros [= <-]. by apply IH.
Qed.

(** X2. When no two events carry the same timestamp value, the order of the
    input is irrelevant: every rearrangement gives the same run, the same
    mapping or the same exception. *)
Theorem distinct_timestamps_any_order `{IsoParser} (l1 l2 : list RawEvent) :
  l1 ≡ₚ l2 ->
  NoDup (timestamp <$> l1) ->
  run_aggregation l1 = run_aggregation l2
  /\ aggregate_buffering_data l1 = aggregate_buffering_data l2.
Proof.
  intros Hperm Hnd.
  assert (sorted_by_timestamp l1 = sorted_by_timestamp l2) as Hsame.
  { destruct (sorted_by_timestamp l1) as [s1|e1] eqn:Hs1.
    - destruct (sorted_by_timestamp_perm_Ok _ _ _ Hperm Hs1) as (s2 & Hs2).
      rewrite Hs2. f_equal.
      pose proof (sorted_by_timestamp_perm _ _ Hs1) as Hp1.
      pose proof (sorted_by_timestamp_perm _ _ Hs2) as Hp2.
      apply (StronglySorted_unique_strong timestamp_le).
      + intros x y Hx Hy Hxy Hyx. rewrite <- Hp1 in Hx. rewrite <- Hp2, <- Hperm in Hy.
        apply (NoDup_fmap_eq timestamp l1); [done..|].
        by apply py_lt_antisym.
      + by eapply sorted_by_timestamp_sorted.
      + by eapply sorted_by_timestamp_sorted.
      + by rewrite <- Hp1, <- Hp2.
    - destruct (sorted_by_timestamp l2) as [s2|e2] eqn:Hs2.
      + symmetry in Hperm.
        destruct (sorted_by_timestamp_perm_Ok _ _ _ Hperm Hs2) as (s1 & Hs1').
        congruence.
      + apply sorted_by_timestamp_raises in Hs1, Hs2. congruence. }
  assert (run_aggregation l1 = run_aggregation l2) as Hrun.
  { unfold run_aggregation. by rewrite Hsame. }
  split; [done|]. unfold aggregate_buffering_data. by rewrite Hrun.
Qed.

Lemma distinct_timestamps_any_order_witness :
  run_aggregation fetch_raw_events_from_db = run_aggregation regrouped_events
  /\ aggregate_buffering_data fetch_raw_events_from_db
     = aggregate_buffering_data regrouped_events.
Proof.
  apply (distinct_timestamps_any_order fetch_raw_events_from_db regrouped_events).
  - apply session_events_perm. intros sid.
    unfold session_events, fetch_raw_events_from_db, regrouped_events.
    rewrite !filter_cons, !filter_nil. simpl.
    destruct (decide ("session_A" = sid)) as [<-|]; [reflexivity|].
    destruct (decide ("session_B" = sid)) as [<-|]; [reflexivity|].
    destruct (decide ("session_C" = sid)) as [<-|]; reflexivity.
  - apply (bool_decide_unpack _). vm_compute. exact I.
Defined.

(** ** Some sessions at a time *)

Lemma insert_by_timestamp_filter (P : RawEvent -> Prop) `{forall e, Decision (P e)}
    (x : RawEvent) (l l' : list RawEvent) :
  StronglySorted timestamp_le l ->
  insert_by_timestamp x l = Ok l' ->
  if decide (P x)
  then insert_by_timestamp x (filter P l) = Ok (filter P l')
  else filter P l' = filter P l.
Proof.
  revert l'. induction l as [|y l IH]; intros l' Hsorted Hins; simpl in Hins.
  - injection Hins as <-. rewrite filter_cons. by case_decide.
  - apply StronglySorted_cons in Hsorted as [Hy Hsorted].
    apply bind_Ok_inv in Hins as ([] & Hlt & Hins).
    + apply bind_Ok_inv in Hins as (r & Hr & [= <-]).
      specialize (IH r Hsorted Hr).
      rewrite !(filter_cons _ y). case_decide as Hx.
      * case_decide as Hys; [|done]. simpl. by rewrite Hlt, IH.
      * by rewrite IH.
    + injection Hins as <-. rewrite (filter_cons _ x). case_decide as Hx; [|done].
      apply insert_by_timestamp_front.
      assert (Forall (timestamp_le x) (y :: l)) as Hall.
      { apply Forall_cons. split; [done|].
        eapply Forall_impl; [exact Hy|]. intros z Hyz.
        transitivity y; [exact Hlt | exact Hyz]. }
      apply Forall_forall. intros z Hz. apply list_elem_of_filter in Hz as [_ Hz].
      by apply (proj1 (Forall_forall _ _) Hall).
Qed.

(** Sorting commutes with dropping events. *)
Lemma sorted_by_timestamp_filter (P : RawEvent -> Prop) `{forall e, Decision (P e)}
    (l s : list RawEvent) :
  sorted_by_timestamp l = Ok s ->
  sorted_by_timestamp (filter P l) = Ok (filter P s).
Proof.
  revert s. induction l as [|x l IH]; intros s Hs; simpl in Hs.
  - by injection Hs as <-.
  - apply bind_Ok_inv in Hs as (r & Hr & Hins).
    pose proof (insert_by_timestamp_filter P x r s
                  (sorted_by_timestamp_sorted _ _ Hr) Hins) as Hf.
    rewrite (filter_cons _ x). case_decide as Hx.
    + simpl. by rewrite (IH r Hr).
    + rewrite Hf. by apply IH.
Qed.

Lemma session_events_filter (Q : string -> Prop) `{forall sid, Decision (Q sid)}
    (sid : string) (l : list RawEvent) :
  session_events sid (filter (fun e => Q (session_id e)) l)
  = if decide (Q sid) then session_events sid l else [].
Proof.
  induction l as [|e l IH]; [by case_decide|].
  rewrite filter_cons.
  destruct (decide (session_id e = sid)) as [<-|Hne].
  - rewrite session_events_cons_same.
    destruct (decide (Q (session_id e))) as [HQ|HQ].
    + by rewrite session_events_cons_same, IH.
    + by rewrite IH.
  - rewrite (session_events_cons_other sid e l Hne).
    destruct (decide (Q (session_id e))); [|done].
    by rewrite session_events_cons_other.
Qed.

(** X3. The entries of some sessions can be computed from the events of
    those sessions alone: when the aggregator returns on the whole input,
    it returns on the input restricted to any set of sessions, with the
    same entries for these sessions and no entry for the others. *)
Theorem sessions_computed_alone `{IsoParser}
    (Q : string -> Prop) `{forall sid, Decision (Q sid)}
    (raw_events : list RawEvent) (m : dict SessionAggregate) :
  aggregate_buffering_data raw_events = Ok m ->
  exists m',
    aggregate_buffering_data (filter (fun e => Q (session_id e)) raw_events) = Ok m'
    /\ forall sid, dict_get m' sid = if decide (Q sid) then dict_get m sid else None.
Proof.
  intros Hagg. unfold aggregate_buffering_data in *.
  apply bind_Ok_inv in Hagg as (st & Hrun & [= <-]).
  unfold run_aggregation in *.
  apply bind_Ok_inv in Hrun as (s & Hs & Hrun).
  rewrite (sorted_by_timestamp_filter _ _ _ Hs). simpl.
  destruct (process_events initial_state (filter (fun e => Q (session_id e)) s))
    as [st2|ex] eqn:Hrun2; simpl.
  - exists (aggregated_data st2). split; [done|]. intros sid.
    pose proof (process_events_view _ _ _ sid Hrun2) as Hview2.
    rewrite session_events_filter in Hview2. case_decide.
    + rewrite (process_events_view _ _ _ sid Hrun) in Hview2. by injection Hview2.
    + simpl in Hview2. by injection Hview2.
  - apply process_events_raise in Hrun2 as (sid & Hraise).
    rewrite session_events_filter in Hraise. case_decide; [|done].
    rewrite (process_events_view _ _ _ sid Hrun) in Hraise. done.
Qed.

Lemma sessions_computed_alone_witness :
  exists m',
    aggregate_buffering_data
      (filter (fun e => session_id e <> "session_A") fetch_raw_events_from_db)
    = Ok m'
    /\ forall sid,
         dict_get m' sid
         = if decide (sid <> "session_A") then dict_get sample_aggregates sid else None.
Proof.
  refine (sessions_computed_alone (fun sid => sid <> "session_A")
            fetch_raw_events_from_db sample_aggregates _).
  vm_compute; reflexivity.
Defined.

(** ** Events that are neither a start nor an end *)

Section Ignored.
Context `{IsoParser}.

(** The printed lines are never read. *)
Lemma process_event_same_locals (st1 st2 : agg_state) (e : RawEvent) :
  same_locals st1 st2 ->
  result_rel same_locals (process_event st1 e) (process_event st2 e).
Proof.
  intros [Hss Hagg]. unfold process_event. rewrite <- Hss, <- Hagg.
  destruct (parse_timestamp (timestamp e)) as [ts|ex].
  - destruct (String.eqb (event_type e) "buffer_start"); [done|].
    destruct (String.eqb (event_type e) "buffer_end"); [|done].
    destruct (session_states st1 !! session_id e) as [t0|]; [|done].
    destruct (datetime_sub ts t0); simpl; [|done].
    destruct (total_seconds _); simpl; [|done].
    destruct (defaultdict_getitem _ _) as [agg1 m1].
    destruct (py_add _ _); simpl; [|done].
    by destruct (defaultdict_getitem _ _) as [agg3 m3].
  - by destruct ex.
Qed.

(** An event that is neither a parsed start nor a parsed end leaves
    [session_states] and [aggregated_data] alone. *)
Lemma process_event_not_buffer_event (st st' : agg_state) (e : RawEvent) :
  is_buffer_event e = false -> process_event st e = Ok st' -> same_locals st' st.
Proof.
  unfold is_buffer_event, classify, process_event.
  destruct (parse_timestamp (timestamp e)) as [ts|ex].
  - destruct (String.eqb (event_type e) "buffer_start"); [done|].
    destruct (String.eqb (event_type e) "buffer_end"); [done|].
    by intros _ [= <-].
  - intros _. by destruct ex; intros [= <-].
Qed.

Lemma process_events_buffer_events (l : list RawEvent) (st1 st2 st1' : agg_state) :
  same_locals st1 st2 ->
  process_events st1 l = Ok st1' ->
  exists st2',
    process_events st2 (filter (fun e => is_buffer_event e = true) l) = Ok st2'
    /\ same_locals st1' st2'.
Proof.
  revert st1 st2. induction l as [|e l IH]; intros st1 st2 Hsame Hrun; simpl in Hrun.
  - injection Hrun as <-. by exists st2.
  - apply bind_Ok_inv in Hrun as (sa & Hstep & Hrun).
    rewrite filter_cons. case_decide as He.
    + pose proof (process_event_same_locals st1 st2 e Hsame) as Hrel.
      rewrite Hstep in Hrel. simpl.
      destruct (process_event st2 e) as [sb|]; simpl in *; [|done].
      by apply (IH sa sb).
    + apply not_true_is_false in He.
      pose proof (process_event_not_buffer_event _ _ _ He Hstep) as [Hss Hagg].
      apply (IH sa st2); [|done]. destruct Hsame as [Hss' Hagg'].
      split; congruence.
Qed.

End Ignored.

(** X4. Only starts and ends with a timestamp that parses count: when the
    aggregator returns, it returns the very same mapping on the input with
    every other event (other event types, timestamps that do not parse)
    removed. *)
Theorem only_buffer_events_matter `{IsoParser}
    (raw_events : list RawEvent) (m : dict SessionAggregate) :
  aggregate_buffering_data raw_events = Ok m ->
  aggregate_buffering_data (filter (fun e => is_buffer_event e = true) raw_events)
  = Ok m.
Proof.
  intros Hagg. unfold aggregate_buffering_data in *.
  apply bind_Ok_inv in Hagg as (st & Hrun & [= <-]).
  unfold run_aggregation in *.
  apply bind_Ok_inv in Hrun as (s & Hs & Hrun).
  rewrite (sorted_by_timestamp_filter _ _ _ Hs). simpl.
  destruct (process_events_buffer_events s initial_state initial_state st)
    as (st2 & -> & _ & Hagg); [done..|].
  simpl. by rewrite Hagg.
Qed.

Lemma only_buffer_events_matter_witness :
  aggregate_buffering_data
    (filter (fun e => is_buffer_event e = true)
       (mkRawEvent "user_1" "session_A" "seek" (VStr "2023-10-27T10:00:16Z")
        :: mkRawEvent "user_1" "session_A" "buffer_end" (VStr "yesterday")
        :: fetch_raw_events_from_db))
  = Ok sample_aggregates.
Proof.
  apply (only_buffer_events_matter
           (mkRawEvent "user_1" "session_A" "seek" (VStr "2023-10-27T10:00:16Z")
            :: mkRawEvent "user_1" "session_A" "buffer_end" (VStr "yesterday")
            :: fetch_raw_events_from_db)).
  vm_compute; reflexivity.
Defined.

(** ** Accounting for the ends *)

Lemma events_total_dict_set (d : dict SessionAggregate) (k : string) (v : SessionAggregate) :
  events_total (dict_set d k v)
  = events_total d - buffer_events_count (entry_or_default (dict_get d k))
    + buffer_events_count v.
Proof.
  induction d as [|[k' v'] d IH]; simpl; [lia|].
  destruct (String.eqb k' k); simpl; lia.
Qed.

Lemma unmatched_lines_snoc (out : list diagnostic) (d : diagnostic) :
  unmatched_lines (out ++ [d])
  = (unmatched_lines out + if is_unmatched_line d then 1 else 0)%nat.
Proof.
  unfold unmatched_lines. rewrite filter_app, length_app, filter_cons, filter_nil.
  by destruct d; simpl.
Qed.

Lemma invalid_lines_snoc (out : list diagnostic) (d : diagnostic) :
  invalid_lines (out ++ [d])
  = (invalid_lines out + if is_invalid_line d then 1 else 0)%nat.
Proof.
  unfold invalid_lines. rewrite filter_app, length_app, filter_cons, filter_nil.
  by destruct d; simpl.
Qed.

Section Accounting.
Context `{IsoParser}.

(** What an iteration adds to the counts and to the two kinds of lines. *)
Lemma process_event_accounting (st st' : agg_state) (e : RawEvent) :
  process_event st e = Ok st' ->
  events_total (aggregated_data st') + Z.of_nat (unmatched_lines (stdout st'))
  = events_total (aggregated_data st) + Z.of_nat (unmatched_lines (stdout st))
    + (if is_parsed_end e then 1 else 0)
  /\ invalid_lines (stdout st')
     = (invalid_lines (stdout st) + if is_unparsed e then 1 else 0)%nat.
Proof.
  unfold is_parsed_end, is_unparsed, classify.
  destruct (parse_timestamp (timestamp e)) as [ts|ex] eqn:Hp.
  - destruct (String.eqb (event_type e) "buffer_start") eqn:Hs.
    { unfold process_event. rewrite Hp, Hs. intros [= <-]. simpl. lia. }
    destruct (String.eqb (event_type e) "buffer_end") eqn:He.
    + destruct (session_states st !! session_id e) as [t0|] eqn:Hl.
      * rewrite (process_event_end st e ts t0) by done. intros Hstep.
        apply bind_Ok_inv in Hstep as (delta & _ & Hstep).
        apply bind_Ok_inv in Hstep as (dur & _ & Hstep).
        apply bind_Ok_inv in Hstep as (t & _ & [= <-]). simpl.
        rewrite events_total_dict_set. simpl. lia.
      * unfold process_event. rewrite Hp, Hs, He, Hl. intros [= <-]. simpl.
        rewrite unmatched_lines_snoc, invalid_lines_snoc. simpl. lia.
    + unfold process_event. rewrite Hp, Hs, He. intros [= <-]. lia.
  - unfold process_event. rewrite Hp.
    destruct ex; try discriminate; intros [= <-]; simpl;
      rewrite unmatched_lines_snoc, invalid_lines_snoc; simpl; lia.
Qed.

Lemma process_events_accounting (l : list RawEvent) (st st' : agg_state) :
  process_events st l = Ok st' ->
  events_total (aggregated_data st') + Z.of_nat (unmatched_lines (stdout st'))
  = events_total (aggregated_data st) + Z.of_nat (unmatched_lines (stdout st))
    + Z.of_nat (parsed_ends l)
  /\ invalid_lines (stdout st') = (invalid_lines (stdout st) + unparsed_events l)%nat.
Proof.
  unfold parsed_ends, unparsed_events.
  revert st. induction l as [|e l IH]; intros st Hrun; simpl in Hrun.
  - injection Hrun as <-. simpl. lia.
  - apply bind_Ok_inv in Hrun as (sa & Hstep & Hrun).
    apply process_event_accounting in Hstep as [Hc Hi].
    destruct (IH _ Hrun) as [Hc' Hi'].
    rewrite !filter_cons.
    destruct (is_parsed_end e), (is_unparsed e);
      repeat case_decide; try done; simpl length; lia.
Qed.

End Accounting.

(** X5. Every end is accounted for. When the aggregator returns, the number
    of ends with a timestamp that parses is the sum of all
    [buffer_events_count] plus the number of unmatched-end warnings
    printed, and one invalid-timestamp line is printed for each event whose
    timestamp does not parse. *)
Theorem ends_are_counted_or_reported `{IsoParser}
    (raw_events : list RawEvent) (st : agg_state) :
  run_aggregation raw_events = Ok st ->
  Z.of_nat (parsed_ends raw_events)
  = events_total (aggregated_data st) + Z.of_nat (unmatched_lines (stdout st))
  /\ invalid_lines (stdout st) = unparsed_events raw_events
  /\ length (stdout st)
     = (unmatched_lines (stdout st) + invalid_lines (stdout st))%nat.
Proof.
  intros Hrun. unfold run_aggregation in Hrun.
  apply bind_Ok_inv in Hrun as (s & Hs & Hrun).
  apply sorted_by_timestamp_perm in Hs.
  apply process_events_accounting in Hrun as [Hc Hi]. simpl in Hc, Hi.
  change (unmatched_lines []) with 0%nat in Hc.
  unfold parsed_ends, unparsed_events in *. rewrite Hs. split; [lia|]. split; [lia|].
  clear. unfold unmatched_lines, invalid_lines.
  induction (stdout st) as [|d out IH]; [done|].
  rewrite !filter_cons. destruct d; simpl; repeat case_decide; try done; simpl; lia.
Qed.

Lemma ends_are_counted_or_reported_witness :
  Z.of_nat (parsed_ends (reverse trailing_start_events))
  = events_total [("session_A", mkSessionAggregate (NFloat 3.0) 1)]
    + Z.of_nat (unmatched_lines [])
  /\ invalid_lines [] = unparsed_events (reverse trailing_start_events)
  /\ length (@nil diagnostic) = (unmatched_lines [] + invalid_lines [])%nat.
Proof.
  apply (ends_are_counted_or_reported (reverse trailing_start_events)
           (mkState {[ "session_A" := at_10_05_00 ]}
                    [("session_A", mkSessionAggregate (NFloat 3.0) 1)] [])).
  vm_compute; reflexivity.
Defined.

(** ** The entries of the result *)

Lemma dict_get_elem {V : Type} (d : dict V) (k : string) (v : V) :
  dict_get d k = Some v -> (k, v) ∈ d.
Proof.
  induction d as [|[k' v'] d IH]; simpl; [done|].
  destruct (String.eqb_spec k' k) as [->|Hne].
  - intros [= ->]. by left.
  - intros Hget. right. by apply IH.
Qed.

Lemma dict_get_None_keys {V : Type} (d : dict V) (k : string) :
  dict_get d k = None -> k ∉ d.*1.
Proof.
  induction d as [|[k' v'] d IH]; simpl; [intros _; apply not_elem_of_nil|].
  destruct (String.eqb_spec k' k) as [->|Hne]; [done|].
  intros Hget. apply not_elem_of_cons. split; [congruence | by apply IH].
Qed.

Lemma elem_dict_get {V : Type} (d : dict V) (k : string) (v : V) :
  NoDup d.*1 -> (k, v) ∈ d -> dict_get d k = Some v.
Proof.
  induction d as [|[k' v'] d IH]; simpl; intros Hnd Hin; [by apply elem_of_nil in Hin|].
  apply NoDup_cons in Hnd as [Hk' Hnd].
  apply elem_of_cons in Hin as [[= -> ->]|Hin].
  - by rewrite String.eqb_refl.
  - destruct (String.eqb_spec k' k) as [->|Hne]; [|by apply IH].
    destruct Hk'. by apply (list_elem_of_fmap_2 fst d (k, v)).
Qed.

Lemma dict_set_keys {V : Type} (d : dict V) (k : string) (v : V) :
  (dict_set d k v).*1
  = match dict_get d k with
    | Some _ => d.*1
    | None => (d.*1 ++ [k])%list
    end.
Proof.
  induction d as [|[k' v'] d IH]; [done|]. cbn [dict_set dict_get].
  destruct (String.eqb k' k); [done|].
  rewrite !fmap_cons, IH. by destruct (dict_get d k).
Qed.

Lemma dict_set_NoDup {V : Type} (d : dict V) (k : string) (v : V) :
  NoDup d.*1 -> NoDup (dict_set d k v).*1.
Proof.
  intros Hnd. rewrite dict_set_keys.
  destruct (dict_get d k) eqn:Hget; [done|].
  apply NoDup_app. split; [done|]. split; [|apply NoDup_singleton].
  intros x Hx Hk. apply list_elem_of_singleton in Hk as ->.
  by apply (dict_get_None_keys d k).
Qed.

Lemma paired_intervals_elem (tr : list buffer_event) (p : datetime * datetime) :
  p ∈ paired_intervals tr -> BufferStart (fst p) ∈ tr /\ BufferEnd (snd p) ∈ tr.
Proof.
  induction tr as [|a tr IH]; [intros Hin; by apply elem_of_nil in Hin|].
  assert (p ∈ paired_intervals tr ->
          BufferStart (fst p) ∈ a :: tr /\ BufferEnd (snd p) ∈ a :: tr) as Hrest.
  { intros Hin. destruct (IH Hin). split; by right. }
  destruct a as [t1|t1]; [|exact Hrest].
  destruct tr as [|[t2|t2] tr]; [exact Hrest | exact Hrest |].
  change (paired_intervals (BufferStart t1 :: BufferEnd t2 :: tr))
    with ((t1, t2) :: paired_intervals (BufferEnd t2 :: tr)).
  intros [->|Hin]%elem_of_cons; [|by apply Hrest].
  simpl. split; [by left | right; by left].
Qed.

Section Entries.
Context `{IsoParser}.

Lemma process_events_keys_NoDup (l : list RawEvent) (st st' : agg_state) :
  NoDup (aggregated_data st).*1 ->
  process_events st l = Ok st' ->
  NoDup (aggregated_data st').*1.
Proof.
  revert st. induction l as [|e l IH]; intros st Hnd Hrun; simpl in Hrun.
  - by injection Hrun as <-.
  - apply bind_Ok_inv in Hrun as (sa & Hstep & Hrun).
    apply (IH sa); [|done]. clear IH Hrun.
    destruct (is_buffer_event e) eqn:Hbe.
    + unfold is_buffer_event, classify in Hbe.
      destruct (parse_timestamp (timestamp e)) as [ts|ex] eqn:Hp; [|done].
      destruct (String.eqb (event_type e) "buffer_start") eqn:Hs.
      { unfold process_event in Hstep. rewrite Hp, Hs in Hstep. by injection Hstep as <-. }
      destruct (String.eqb (event_type e) "buffer_end") eqn:He; [|done].
      destruct (session_states st !! session_id e) as [t0|] eqn:Hl.
      * rewrite (process_event_end st e ts t0) in Hstep by done.
        apply bind_Ok_inv in Hstep as (delta & _ & Hstep).
        apply bind_Ok_inv in Hstep as (dur & _ & Hstep).
        apply bind_Ok_inv in Hstep as (t & _ & [= <-]). simpl.
        by apply dict_set_NoDup.
      * unfold process_event in Hstep. rewrite Hp, Hs, He, Hl in Hstep.
        by injection Hstep as <-.
    + destruct (process_event_not_buffer_event _ _ _ Hbe Hstep) as [_ ->]. done.
Qed.

Lemma classify_start (e : RawEvent) (t : datetime) :
  classify e = Some (BufferStart t) -> event_type e = "buffer_start".
Proof.
  unfold classify. destruct (parse_timestamp (timestamp e)); [|done].
  destruct (String.eqb_spec (event_type e) "buffer_start"); [done|].
  by destruct (String.eqb (event_type e) "buffer_end").
Qed.

Lemma classify_end (e : RawEvent) (t : datetime) :
  classify e = Some (BufferEnd t) -> event_type e = "buffer_end".
Proof.
  unfold classify. destruct (parse_timestamp (timestamp e)); [|done].
  destruct (String.eqb (event_type e) "buffer_start"); [done|].
  by destruct (String.eqb_spec (event_type e) "buffer_end").
Qed.

Lemma session_trace_elem (sid : string) (l : list RawEvent) (b : buffer_event) :
  b ∈ session_trace sid l ->
  exists e, e ∈ l /\ session_id e = sid /\ classify e = Some b.
Proof.
  unfold session_trace, session_events. intros Hb.
  apply list_elem_of_omap in Hb as (e & He & Hc).
  apply list_elem_of_filter in He as [Hsid He]. eauto.
Qed.

(** The shape of an entry of the final [aggregated_data]. *)
Lemma run_aggregation_entry (raw_events : list RawEvent) (st : agg_state)
    (sid : string) (a : SessionAggregate) :
  run_aggregation raw_events = Ok st ->
  dict_get (aggregated_data st) sid = Some a ->
  (exists f, total_buffer_duration_seconds a = NFloat f)
  /\ 1 <= buffer_events_count a
  /\ exists e1 e2,
       e1 ∈ raw_events /\ e2 ∈ raw_events
       /\ session_id e1 = sid /\ session_id e2 = sid
       /\ event_type e1 = "buffer_start" /\ event_type e2 = "buffer_end".
Proof.
  intros Hrun Hget. unfold run_aggregation in Hrun.
  apply bind_Ok_inv in Hrun as (s & Hs & Hrun).
  pose proof (process_events_view _ _ _ sid Hrun) as Hview.
  unfold view at 1 in Hview. simpl in Hview. rewrite lookup_empty in Hview.
  destruct (session_steps_pairs _ None _ None _ 0%float 0 (conj eq_refl eq_refl) Hview)
    as (durs & Hdurs & Hagg & _).
  rewrite Hget in Hagg. simpl in Hdurs.
  destruct durs as [|d durs]; [done|]. injection Hagg as ->. simpl.
  split; [eauto|]. split; [lia|].
  destruct (paired_intervals (omap classify (session_events sid s))) as [|p ps] eqn:Hps;
    [by apply Forall2_nil_cons_inv in Hdurs|].
  destruct (paired_intervals_elem (session_trace sid s) p) as [Hstart Hend].
  { unfold session_trace. rewrite Hps. by left. }
  apply session_trace_elem in Hstart as (e1 & He1 & Hs1 & Hc1).
  apply session_trace_elem in Hend as (e2 & He2 & Hs2 & Hc2).
  apply sorted_by_timestamp_perm in Hs.
  exists e1, e2. rewrite Hs.
  repeat split; try done; [by eapply classify_start | by eapply classify_end].
Qed.

Lemma run_aggregation_keys_NoDup (raw_events : list RawEvent) (st : agg_state) :
  run_aggregation raw_events = Ok st -> NoDup (aggregated_data st).*1.
Proof.
  intros Hrun. unfold run_aggregation in Hrun.
  apply bind_Ok_inv in Hrun as (s & _ & Hrun).
  eapply process_events_keys_NoDup; [|done]. apply NoDup_nil_2.
Qed.

End Entries.

(** X6. Every entry of the returned mapping is well formed: the session ids
    are distinct, each total is a float, each count is at least 1, and the
    session has a [buffer_start] and a [buffer_end] event in the input. *)
Theorem returned_entries_well_formed `{IsoParser}
    (raw_events : list RawEvent) (m : dict SessionAggregate) :
  aggregate_buffering_data raw_events = Ok m ->
  NoDup m.*1
  /\ forall sid a, (sid, a) ∈ m ->
       (exists f, total_buffer_duration_seconds a = NFloat f)
       /\ 1 <= buffer_events_count a
       /\ exists e1 e2,
            e1 ∈ raw_events /\ e2 ∈ raw_events
            /\ session_id e1 = sid /\ session_id e2 = sid
            /\ event_type e1 = "buffer_start" /\ event_type e2 = "buffer_end".
Proof.
  intros Hagg. unfold aggregate_buffering_data in Hagg.
  apply bind_Ok_inv in Hagg as (st & Hrun & [= <-]).
  pose proof (run_aggregation_keys_NoDup _ _ Hrun) as Hnd.
  split; [done|]. intros sid a Hin.
  apply (run_aggregation_entry raw_events st sid a Hrun).
  by apply elem_dict_get.
Qed.

Lemma returned_entries_well_formed_witness :
  NoDup sample_aggregates.*1
  /\ forall sid a, (sid, a) ∈ sample_aggregates ->
       (exists f, total_buffer_duration_seconds a = NFloat f)
       /\ 1 <= buffer_events_count a
       /\ exists e1 e2,
            e1 ∈ fetch_raw_events_from_db /\ e2 ∈ fetch_raw_events_from_db
            /\ session_id e1 = sid /\ session_id e2 = sid
            /\ event_type e1 = "buffer_start" /\ event_type e2 = "buffer_end".
Proof.
  apply (returned_entries_well_formed fetch_raw_events_from_db sample_aggregates).
  vm_compute; reflexivity.
Defined.

(** ** The aggregator and the summary in sequence *)

Lemma summary_of_float_totals (aggregated : dict SessionAggregate) :
  float_totals aggregated ->
  Z.of_nat (length aggregated) < float_overflow_bound ->
  Z.abs (events_total aggregated) < float_overflow_bound ->
  exists t a1 a2,
    generate_summary_metrics aggregated
    = Ok (mkSummaryMetrics (Z.of_nat (length aggregated)) t
            (events_total aggregated) a1 a2).
Proof.
  intros Hfl Hlen Hev. unfold generate_summary_metrics.
  destruct (sum_metrics_float_totals aggregated (NInt 0) 0 Hfl) as (t & -> & Hnil & Hcons);
    [by left|].
  simpl. rewrite Z.add_0_l. exists t.
  assert (exists a1, (if 0 <? Z.of_nat (length aggregated)
                      then py_truediv t (NInt (Z.of_nat (length aggregated)))
                      else Ok (NInt 0)) = Ok a1) as (a1 & ->).
  { destruct (0 <? Z.of_nat (length aggregated)) eqn:Hpos; [|eauto].
    destruct Hcons as (f & ->); [by destruct aggregated|].
    destruct (py_truediv_float_int f (Z.of_nat (length aggregated))) as (y & _ & ->);
      [lia | lia | eauto]. }
  simpl.
  assert (exists a2, (if 0 <? events_total aggregated
                      then py_truediv t (NInt (events_total aggregated))
                      else Ok (NInt 0)) = Ok a2) as (a2 & ->).
  { destruct (0 <? events_total aggregated) eqn:Hpos; [|eauto].
    destruct Hcons as (f & ->); [by destruct aggregated|].
    destruct (py_truediv_float_int f (events_total aggregated)) as (y & _ & ->);
      [lia | lia | eauto]. }
  simpl. eauto.
Qed.

Lemma events_total_at_least_length (aggregated : dict SessionAggregate) :
  Forall (fun kv => 1 <= buffer_events_count (snd kv)) aggregated ->
  Z.of_nat (length aggregated) <= events_total aggregated.
Proof. induction 1 as [|kv d Hkv Hd IH]; simpl in *; lia. Qed.

(** X7. The summary of what the aggregator returns is always computed: for
    an input of any realistic length the summary returns, its number of
    sessions is the number of entries, its number of events is the sum of
    the counts, and sessions <= events <= ends in the input. *)
Theorem summary_of_aggregation_returns `{IsoParser}
    (raw_events : list RawEvent) (m : dict SessionAggregate) :
  aggregate_buffering_data raw_events = Ok m ->
  Z.of_nat (length raw_events) < float_overflow_bound ->
  exists summary,
    generate_summary_metrics m = Ok summary
    /\ total_sessions_with_buffering summary = Z.of_nat (length m)
    /\ total_buffer_events summary = events_total m
    /\ total_sessions_with_buffering summary <= total_buffer_events summary
    /\ total_buffer_events summary <= Z.of_nat (parsed_ends raw_events)
    /\ (parsed_ends raw_events <= length raw_events)%nat.
Proof.
  intros Hagg Hlen. unfold aggregate_buffering_data in Hagg.
  apply bind_Ok_inv in Hagg as (st & Hrun & [= <-]).
  pose proof (run_aggregation_keys_NoDup _ _ Hrun) as Hnd.
  assert (Forall (fun kv => (exists f, total_buffer_duration_seconds (snd kv) = NFloat f)
                            /\ 1 <= buffer_events_count (snd kv))
                 (aggregated_data st)) as Hall.
  { apply Forall_forall. intros [sid a] Hin.
    destruct (run_aggregation_entry raw_events st sid a Hrun) as (Hf & Hc & _);
      [by apply elem_dict_get | done]. }
  apply Forall_and in Hall as [Hfl Hcount].
  apply events_total_at_least_length in Hcount.
  assert (events_total (aggregated_data st) <= Z.of_nat (parsed_ends raw_events)) as Hends.
  { unfold run_aggregation in Hrun. apply bind_Ok_inv in Hrun as (s & Hs & Hrun).
    apply sorted_by_timestamp_perm in Hs.
    apply process_events_accounting in Hrun as [Hc _]. simpl in Hc.
    change (unmatched_lines []) with 0%nat in Hc.
    unfold parsed_ends in *. rewrite Hs. lia. }
  assert (parsed_ends raw_events <= length raw_events)%nat as Hle
    by apply length_filter.
  destruct (summary_of_float_totals (aggregated_data st) Hfl) as (t & a1 & a2 & Hsum);
    [lia | lia |].
  eexists. split; [exact Hsum|]. simpl. repeat split; lia.
Qed.

Lemma summary_of_aggregation_returns_witness :
  exists summary,
    generate_summary_metrics sample_aggregates = Ok summary
    /\ total_sessions_with_buffering summary = Z.of_nat (length sample_aggregates)
    /\ total_buffer_events summary = events_total sample_aggregates
    /\ total_sessions_with_buffering summary <= total_buffer_events summary
    /\ total_buffer_events summary <= Z.of_nat (parsed_ends fetch_raw_events_from_db)
    /\ (parsed_ends fetch_raw_events_from_db <= length fetch_raw_events_from_db)%nat.
Proof.
  apply (summary_of_aggregation_returns fetch_raw_events_from_db sample_aggregates).
  - vm_compute; reflexivity.
  - vm_compute; reflexivity.
Defined.

(** ** The summary and the session ids *)

Lemma sum_metrics_same_values (d1 d2 : dict SessionAggregate) (time : pynum) (n : Z) :
  same_values d1 d2 -> sum_metrics d1 time n = sum_metrics d2 time n.
Proof.
  intros Hsame. revert time n.
  induction Hsame as [|[k1 v1] [k2 v2] d1 d2 Hv Hd IH]; intros time n; [done|].
  simpl in *. subst v2. destruct (py_add time _); simpl; [apply IH | done].
Qed.

(** X8. The summary does not read the session ids: two mappings with the
    same entries in the same order, under whatever keys, have the same
    summary. *)
Theorem summary_ignores_session_ids (d1 d2 : dict SessionAggregate) :
  same_values d1 d2 -> generate_summary_metrics d1 = generate_summary_metrics d2.
Proof.
  intros Hsame. unfold generate_summary_metrics.
  rewrite (sum_metrics_same_values d1 d2 _ _ Hsame).
  by rewrite (Forall2_length _ _ _ Hsame).
Qed.

Lemma summary_ignores_session_ids_witness :
  generate_summary_metrics sample_aggregates
  = generate_summary_metrics
      [ ("x", mkSessionAggregate (NFloat 5.0) 2);
        ("y", mkSessionAggregate (NFloat 5.0) 1);
        ("z", mkSessionAggregate (NFloat 5.0) 1) ].
Proof.
  apply (summary_ignores_session_ids sample_aggregates).
  repeat constructor.
Defined.

(** ** The [Z] suffix *)

Lemma rstrip_snoc (c : ascii) (s : string) :
  rstrip c (s ++ String c EmptyString) = rstrip c s.
Proof.
  induction s as [|a s IH]; simpl.
  - by rewrite Ascii.eqb_refl.
  - by rewrite IH.
Qed.

Lemma strip_snoc (c : ascii) (s : string) :
  strip c (s ++ String c EmptyString) = strip c s.
Proof.
  unfold strip. induction s as [|a s IH]; simpl.
  - by rewrite Ascii.eqb_refl.
  - destruct (Ascii.eqb a c); [done|].
    change (String a (s ++ String c EmptyString))
      with (String a s ++ String c EmptyString).
    apply rstrip_snoc.
Qed.

Lemma strip_cons (c : ascii) (s : string) : strip c (String c s) = strip c s.
Proof. unfold strip. simpl. by rewrite Ascii.eqb_refl. Qed.

Lemma lstrip_idemp (c : ascii) (s : string) : lstrip c (lstrip c s) = lstrip c s.
Proof.
  induction s as [|a s IH]; simpl; [done|].
  destruct (Ascii.eqb a c) eqn:Ha; [done|]. simpl. by rewrite Ha.
Qed.

Lemma rstrip_idemp (c : ascii) (s : string) : rstrip c (rstrip c s) = rstrip c s.
Proof.
  induction s as [|a s IH]; simpl; [done|].
  destruct (rstrip c s) as [|b r] eqn:Hr.
  - destruct (Ascii.eqb a c) eqn:Ha; simpl; [done|]. by rewrite Ha.
  - simpl in *. by rewrite IH.
Qed.

Lemma lstrip_rstrip (c : ascii) (s : string) :
  lstrip c (rstrip c (lstrip c s)) = rstrip c (lstrip c s).
Proof.
  induction s as [|a s IH]; simpl; [done|].
  destruct (Ascii.eqb a c) eqn:Ha; [done|]. simpl.
  destruct (rstrip c s); rewrite ?Ha; simpl; by rewrite Ha.
Qed.

(** X9. [strip('Z')] takes every [Z] off both ends, not one off the end: a
    timestamp with further [Z]s appended or prepended parses to the same
    result, and stripping twice is stripping once. *)
Theorem extra_Z_ignored `{IsoParser} (s : string) :
  parse_timestamp (VStr (s ++ "Z")) = parse_timestamp (VStr s)
  /\ parse_timestamp (VStr (String "Z" s)) = parse_timestamp (VStr s)
  /\ strip "Z" (strip "Z" s) = strip "Z" s.
Proof.
  unfold parse_timestamp. simpl. rewrite strip_snoc, strip_cons.
  split; [done|]. split; [done|].
  unfold strip. by rewrite lstrip_rstrip, rstrip_idemp.
Qed.

(** ** Inputs on which the aggregator returns *)

Transparent datetime_sub total_seconds int_true_divide.

Lemma days_in_month_bounds (y m : Z) : 28 <= days_in_month y m <= 31.
Proof.
  unfold days_in_month. destruct (m =? 2); [destruct (is_leap y); lia|].
  destruct (_ || _)%bool; lia.
Qed.

Lemma days_before_month_aux_bounds (y : Z) (n : nat) :
  0 <= days_before_month_aux y n <= 31 * Z.of_nat n.
Proof.
  induction n as [|n IH]; [simpl; lia|].
  cbn [days_before_month_aux].
  pose proof (days_in_month_bounds y (Z.of_nat (S n))). lia.
Qed.

Lemma toordinal_bounds (t : datetime) :
  valid_naive t -> 1 <= toordinal t <= 3660000.
Proof.
  intros (_ & Hy & Hm & Hd & _). unfold toordinal, ymd2ord, days_before_month.
  pose proof (days_before_month_aux_bounds (year t) (Z.to_nat (month t - 1))) as Hb.
  assert (0 <= days_before_year (year t) <= 3652000) as Hyear.
  { unfold days_before_year. Z.div_mod_to_equations. lia. }
  lia.
Qed.

Lemma datetime_sub_valid (a b : datetime) :
  valid_naive a -> valid_naive b ->
  exists d, datetime_sub a b = Ok d /\ Z.abs d < 10 ^ 18.
Proof.
  intros Ha Hb.
  pose proof (toordinal_bounds a Ha) as Hoa. pose proof (toordinal_bounds b Hb) as Hob.
  destruct Ha as (Hza & _ & _ & _ & Hha & Hma & Hsa & Hua).
  destruct Hb as (Hzb & _ & _ & _ & Hhb & Hmb & Hsb & Hub).
  unfold datetime_sub. rewrite Hza, Hzb. eexists. split; [reflexivity|].
  change (10 ^ 18) with 1000000000000000000. lia.
Qed.

Lemma total_seconds_bounded (d : timedelta) :
  Z.abs d < 10 ^ 18 -> exists x, total_seconds d = Ok x.
Proof.
  intros Hd. unfold total_seconds, int_true_divide.
  change (1000000 =? 0) with false. cbv iota.
  assert (10 ^ 18 < float_overflow_bound) as Hbound by (vm_compute; reflexivity).
  destruct (Z.leb_spec (float_overflow_bound * Z.abs 1000000) (Z.abs d)) as [Hle|_];
    [|eauto].
  change (Z.abs 1000000) with 1000000 in Hle. lia.
Qed.

Opaque datetime_sub total_seconds int_true_divide.

Lemma float_totals_dict_get (d : dict SessionAggregate) (k : string) :
  float_totals d -> exists x c, float_entry (dict_get d k) x c.
Proof.
  intros Hfl. destruct (dict_get d k) as [m|] eqn:Hget; simpl.
  - apply dict_get_elem in Hget.
    destruct (proj1 (Forall_forall _ _) Hfl _ Hget) as (f & Hf). simpl in Hf.
    exists f, (buffer_events_count m). destruct m; simpl in *. by subst.
  - by exists 0%float, 0.
Qed.

Lemma float_totals_dict_set (d : dict SessionAggregate) (k : string) (f : float) (c : Z) :
  float_totals d -> float_totals (dict_set d k (mkSessionAggregate (NFloat f) c)).
Proof.
  unfold float_totals. induction 1 as [|[k' v'] d Hv Hd IH]; simpl.
  - apply Forall_singleton. simpl. eauto.
  - destruct (String.eqb k' k); apply Forall_cons; split; simpl; eauto.
Qed.

Section Returns.
Context `{IsoParser}.

Lemma process_event_returns (st : agg_state) (e : RawEvent) :
  loop_ok st -> well_stamped e ->
  exists st', process_event st e = Ok st' /\ loop_ok st'.
Proof.
  intros [Hpend Hfl] [(s & Hts) Hvalid].
  destruct (parse_timestamp (timestamp e)) as [ts|ex] eqn:Hp.
  - specialize (Hvalid ts eq_refl).
    destruct (String.eqb (event_type e) "buffer_start") eqn:Hs.
    { unfold process_event. rewrite Hp, Hs. eexists. split; [done|].
      split; [|done]. simpl. intros sid t.
      destruct (decide (session_id e = sid)) as [<-|Hne].
      - rewrite lookup_insert_eq. by intros [= <-].
      - rewrite lookup_insert_ne by done. apply Hpend. }
    destruct (String.eqb (event_type e) "buffer_end") eqn:He.
    + destruct (session_states st !! session_id e) as [t0|] eqn:Hl.
      * rewrite (process_event_end st e ts t0) by done.
        destruct (datetime_sub_valid ts t0 Hvalid (Hpend _ _ Hl)) as (delta & -> & Hd).
        simpl. destruct (total_seconds_bounded delta Hd) as (dur & ->). simpl.
        destruct (float_totals_dict_get (aggregated_data st) (session_id e) Hfl)
          as (x & c & Hentry).
        destruct (py_add_float_entry _ x c dur Hentry) as [-> ->]. simpl.
        eexists. split; [done|]. split; simpl.
        -- intros sid t. destruct (decide (session_id e = sid)) as [<-|Hne].
           ++ by rewrite lookup_delete_eq.
           ++ rewrite lookup_delete_ne by done. apply Hpend.
        -- by apply float_totals_dict_set.
      * unfold process_event. rewrite Hp, Hs, He, Hl. by eexists.
    + unfold process_event. rewrite Hp, Hs, He. by eexists.
  - unfold process_event. rewrite Hp.
    unfold parse_timestamp in Hp. rewrite Hts in Hp. simpl in Hp.
    destruct (fromisoformat (strip "Z" s)); [discriminate|]. injection Hp as <-.
    by eexists.
Qed.

Lemma process_events_returns (l : list RawEvent) (st : agg_state) :
  loop_ok st -> Forall well_stamped l ->
  exists st', process_events st l = Ok st' /\ loop_ok st'.
Proof.
  intros Hok Hall. revert st Hok.
  induction Hall as [|e l He Hl IH]; intros st Hok; simpl; [eauto|].
  destruct (process_event_returns st e Hok He) as (sa & -> & Hoka). simpl.
  by apply IH.
Qed.

End Returns.

(** X10. On well-typed input the aggregator never raises: if every
    timestamp is a string and each one that parses gives a naive
    [datetime] with its fields in range, a mapping is returned, whatever
    the event types, sessions and order, and however many timestamps fail
    to parse. *)
Theorem well_stamped_input_returns `{IsoParser} (raw_events : list RawEvent) :
  Forall well_stamped raw_events ->
  exists m, aggregate_buffering_data raw_events = Ok m.
Proof.
  intros Hall. unfold aggregate_buffering_data, run_aggregation.
  destruct (sorted_by_timestamp_uniform raw_events) as (s & Hs).
  { exists 0%nat. eapply Forall_impl; [exact Hall|]. by intros e [(x & ->) _]. }
  rewrite Hs. simpl.
  destruct (process_events_returns s initial_state) as (st & -> & _).
  - split; [|constructor]. intros sid t. simpl. by rewrite lookup_empty.
  - by rewrite <- (sorted_by_timestamp_perm _ _ Hs).
  - simpl. eauto.
Qed.

Lemma well_stamped_input_returns_witness :
  exists m,
    aggregate_buffering_data
      (mkRawEvent "user_1" "session_A" "buffer_end" (VStr "yesterday")
       :: trailing_start_events)
    = Ok m.
Proof.
  apply (well_stamped_input_returns
           (mkRawEvent "user_1" "session_A" "buffer_end" (VStr "yesterday")
            :: trailing_start_events)).
  unfold trailing_start_events.
  repeat match goal with |- Forall _ _ => constructor end;
    (split; [eexists; reflexivity|]);
    intros t Ht; vm_compute in Ht; try discriminate;
    injection Ht as <-; vm_compute; intuition discriminate.
Defined.

(** ** The total of the summary *)

Lemma sum_metrics_fold (aggregated : dict SessionAggregate) (x : float) (n : Z) :
  float_totals aggregated ->
  sum_metrics aggregated (NFloat x) n
  = Ok (NFloat (fold_left PrimFloat.add (float_totals_of aggregated) x),
        n + events_total aggregated).
Proof.
  intros Hfl. revert x n.
  induction Hfl as [|[sid m] aggregated (f & Hm) Hfl IH]; intros x n.
  - simpl. by rewrite Z.add_0_r.
  - simpl in Hm. cbn [sum_metrics snd]. rewrite Hm, py_add_float_float.
    cbn [bind]. rewrite IH. unfold float_totals_of. cbn [omap list_omap snd].
    rewrite Hm. cbn [fold_left].
    change (events_total ((sid, m) :: aggregated))
      with (buffer_events_count m + events_total aggregated).
    do 2 f_equal. lia.
Qed.

(** X11. On a mapping with float totals the total time of the summary is
    the sum of the totals taken from left to right in the order of the
    mapping, starting from 0.0, and the integer 0 for the empty mapping; the
    total number of events is the sum of the counts. *)
Theorem summary_totals (aggregated : dict SessionAggregate) (summary : SummaryMetrics) :
  float_totals aggregated ->
  generate_summary_metrics aggregated = Ok summary ->
  total_buffer_time_seconds summary
  = match aggregated with
    | [] => NInt 0
    | _ => NFloat (fold_left PrimFloat.add (float_totals_of aggregated) 0%float)
    end
  /\ total_buffer_events summary = events_total aggregated
  /\ total_sessions_with_buffering summary = Z.of_nat (length aggregated).
Proof.
  intros Hfl Hsum. unfold generate_summary_metrics in Hsum.
  apply bind_Ok_inv in Hsum as ([time events] & Htot & Hsum).
  apply bind_Ok_inv in Hsum as (a1 & _ & Hsum).
  apply bind_Ok_inv in Hsum as (a2 & _ & [= <-]). simpl.
  destruct aggregated as [|[sid m] aggregated].
  - by injection Htot as <- <-.
  - apply Forall_cons in Hfl as [(f & Hm) Hfl]. simpl in Hm.
    cbn [sum_metrics snd] in Htot. rewrite Hm, py_add_zero_float in Htot.
    cbn [bind] in Htot. rewrite (sum_metrics_fold _ _ _ Hfl) in Htot.
    injection Htot as <- <-.
    unfold float_totals_of. cbn [omap list_omap snd]. rewrite Hm.
    cbn [fold_left].
    change (events_total ((sid, m) :: aggregated))
      with (buffer_events_count m + events_total aggregated).
    split; [done|]. split; [lia|done].
Qed.

Lemma summary_totals_witness :
  NFloat 15.0
  = NFloat (fold_left PrimFloat.add (float_totals_of sample_aggregates) 0%float)
  /\ 4 = events_total sample_aggregates
  /\ 3 = Z.of_nat (length sample_aggregates).
Proof.
  apply (summary_totals sample_aggregates
           (mkSummaryMetrics 3 (NFloat 15.0) 4 (NFloat 5.0) (NFloat 3.75))).
  - repeat constructor; simpl; eauto.
  - vm_compute; reflexivity.
Defined.
